(** * A shallow embedding of the retrieval core of the RAG assistant

    The development follows [backend/ingest.py] (class [DocumentIngester]),
    [backend/rag.py] (class [RAGProcessor]) and the request handlers of
    [backend/app.py].

    - Python [str] values are lists of Unicode code points.
    - Python [int] values are [Z]; list lengths are injected with [Z.of_nat].
    - A [try: ... except Exception] block is [catch] in a small error monad.
    - The index directory is a finite map from file names to artifacts.
    - The embedding model, the FAISS search routine, the document parsers
      and the chat-completion endpoint are capabilities outside the
      repository; they are type classes.
    - Calls to [logger] have no influence on any returned value or on the
      files written, and are left out. *)

From Stdlib Require Import ZArith NArith Lia Ascii String Sorted.
From stdpp Require Import base option list gmap strings pretty.

Local Open Scope Z_scope.

(** ** Python strings *)

Module Py.

(** A code point. *)
Definition char := N.

(** A Python [str]. *)
Definition str := list char.

Fixpoint of_string (s : string) : str :=
  match s with
  | EmptyString => []
  | String a s' => N_of_ascii a :: of_string s'
  end.

(** [len(s)] *)
Definition len {A} (s : list A) : Z := Z.of_nat (length s).

(** Truthiness of a sequence: [if s:] holds when [s] is not empty. *)
Definition truthy {A} (s : list A) : bool :=
  match s with [] => false | _ :: _ => true end.

(** [Py_UNICODE_ISSPACE]: the predicate behind [str.isspace],
    [str.strip()] and the regular-expression class [\s] on [str]
    patterns. *)
Definition isspace (c : char) : bool :=
  (((9 <=? c) && (c <=? 13)) || ((28 <=? c) && (c <=? 32))
   || (c =? 133) || (c =? 160) || (c =? 5760)
   || ((8192 <=? c) && (c <=? 8202))
   || (c =? 8232) || (c =? 8233) || (c =? 8239) || (c =? 8287)
   || (c =? 12288))%N.

(** [s.lstrip()] *)
Fixpoint lstrip (s : str) : str :=
  match s with
  | [] => []
  | c :: t => if isspace c then lstrip t else s
  end.

(** [s.rstrip()] *)
Fixpoint rstrip (s : str) : str :=
  match s with
  | [] => []
  | c :: t =>
      match rstrip t with
      | [] => if isspace c then [] else [c]
      | r => c :: r
      end
  end.

(** [s.strip()] *)
Definition strip (s : str) : str := rstrip (lstrip s).

(** Index normalisation of slices and of the [start]/[end] arguments
    of [str.rfind]: a negative index counts from the end, and the
    result is clipped to [0 .. n]. *)
Definition adjust (i n : Z) : Z :=
  if i <? 0 then Z.max (i + n) 0 else Z.min i n.

(** [s[start:stop]] *)
Definition slice {A} (s : list A) (start stop : Z) : list A :=
  let a := adjust start (len s) in
  let b := adjust stop (len s) in
  take (Z.to_nat (b - a)) (drop (Z.to_nat a) s).

(** [s[:n]] for a literal [n >= 0] *)
Definition prefix {A} (s : list A) (n : nat) : list A := slice s 0 (Z.of_nat n).

(** Highest index in [a, a+n) holding [c], or [-1]. *)
Fixpoint rfind_from (c : char) (s : str) (a : Z) (n : nat) : Z :=
  match n with
  | O => -1
  | S n' =>
      if decide (s !! (Z.to_nat a + n')%nat = Some c)
      then a + Z.of_nat n'
      else rfind_from c s a n'
  end.

(** [s.rfind(c, start, stop)] for a one-character needle [c]. *)
Definition rfind (c : char) (s : str) (start stop : Z) : Z :=
  let a := adjust start (len s) in
  let b := adjust stop (len s) in
  rfind_from c s a (Z.to_nat (b - a)).

(** [sep.join(parts)] *)
Fixpoint join (sep : str) (parts : list str) : str :=
  match parts with
  | [] => []
  | [p] => p
  | p :: rest => p ++ sep ++ join sep rest
  end.

(** [l[i]] for a Python integer [i]: negative indices count from the
    end; out of range is [IndexError], rendered here as [None]. *)
Definition index {A} (l : list A) (i : Z) : option A :=
  if 0 <=? i then l !! Z.to_nat i
  else if 0 <=? i + len l then l !! Z.to_nat (i + len l)
  else None.

End Py.

Arguments Py.of_string : simpl never.

Abbreviation pystr := Py.str.
Notation "'py' s" := (Py.of_string s%string) (at level 9, s at level 0, only parsing).

(** ** Exceptions *)

(** An exception value; [str(e)] is its message. *)
Inductive exn := Exception (msg : pystr).

Definition str_exn (e : exn) : pystr := let 'Exception m := e in m.

Inductive result (A : Type) : Type :=
| Ok (a : A)
| Raise (e : exn).
Arguments Ok {A} a.
Arguments Raise {A} e.

#[global] Instance result_ret : MRet result := fun A a => Ok a.
#[global] Instance result_bind : MBind result := fun A B f m =>
  match m with
  | Ok a => f a
  | Raise e => Raise e
  end.

(** [try: body except Exception as e: handler e] *)
Definition catch {A} (body : result A) (handler : exn → result A) : result A :=
  match body with
  | Ok a => Ok a
  | Raise e => handler e
  end.

Definition raised {A} (r : result A) : Prop := ∃ e, r = Raise e.

(** [l[i]], raising [IndexError] out of range. *)
Definition getitem {A} (l : list A) (i : Z) : result A :=
  match Py.index l i with
  | Some x => Ok x
  | None => Raise (Exception (py "list index out of range"))
  end.

(** ** Capabilities outside the repository *)

(** The Unicode character database beyond ASCII: [unicode_alnum c] is
    [chr(c).isalnum()] for a code point [c >= 128]. *)
Class UnicodeData := { unicode_alnum : N → bool }.

(** The document parsers ([PyPDF2], [python-docx], the UTF-8 decoder of
    [open]); [raw] is the content of a file on disk. Any failure of a
    parser is an exception. *)
Class Parsers := {
  raw : Type;
  (** [[page.extract_text() for page in PdfReader(file).pages]] *)
  PdfReader_pages : raw → result (list pystr);
  (** [[p.text for p in Document(file).paragraphs]] *)
  Document_paragraphs : raw → result (list pystr);
  (** [open(file, 'r', encoding='utf-8').read()] *)
  read_utf8 : raw → result pystr
}.

(** The component type of embedding vectors and of similarity scores
    ([float32]), with its comparison. *)
Class Numeric := {
  scalar : Type;
  scalar_leb : scalar → scalar → bool
}.

(** A two-dimensional [numpy] array, as the list of its rows;
    [np.array([])] is the empty list. *)
Definition ndarray `{Numeric} := list (list scalar).

(** [a.size] *)
Definition size `{Numeric} (a : ndarray) : Z := Py.len (concat a).

(** [SentenceTransformer.encode]. *)
Class Embedder `{Numeric} := { encode : list pystr → result ndarray }.

(** The chat-completion endpoint: model name, system prompt, user
    prompt; the result is [response.choices[0].message.content]. *)
Class ChatModel := { chat_completions_create : pystr → pystr → pystr → result pystr }.

(** ** Persisted data *)

(** The metadata dictionary of one chunk. *)
Record meta_dict := {
  source : string;
  chunk_id : Z;
  total_chunks : Z;
  text_length : Z
}.

(** A flat FAISS index: its dimension and its vectors in insertion
    order. *)
Record faiss_index `{Numeric} := {
  d : Z;
  vectors : list (list scalar)
}.

(** [index.search(x, k)] gives the first row of the score matrix and of
    the label matrix. *)
Class VectorSearch `{Numeric} := {
  search : faiss_index → ndarray → Z → result (list scalar * list Z)
}.

(** The content of a file of the index directory. Contents are typed: a
    file that does not hold what its reader expects is unreadable for
    that reader. *)
Inductive artifact `{Numeric} :=
| FaissBinary (i : faiss_index)
| PickledMetadata (m : list meta_dict)
| PickledChunks (c : list pystr)
| Unreadable.

(** The index directory: its files, and the names that cannot be opened
    for writing. *)
Record directory `{Numeric} := {
  files : gmap string artifact;
  locked : gset string
}.

(** Computations that read and write the index directory and may
    raise. *)
Definition io `{Numeric} (A : Type) : Type := directory → result A * directory.

#[global] Instance io_ret `{Numeric} : MRet io := fun A a dir => (Ok a, dir).
#[global] Instance io_bind `{Numeric} : MBind io := fun A B f m dir =>
  match m dir with
  | (Ok a, dir') => f a dir'
  | (Raise e, dir') => (Raise e, dir')
  end.

Definition io_lift `{Numeric} {A} (r : result A) : io A := fun dir => (r, dir).

(** [try: body except Exception as e: handler e]; what [body] wrote
    before it raised stays written. *)
Definition io_catch `{Numeric} {A} (body : io A) (handler : exn → io A) : io A :=
  fun dir =>
    match body dir with
    | (Ok a, dir') => (Ok a, dir')
    | (Raise e, dir') => handler e dir'
    end.

Module Fs.
Section Fs.
Context {Nm : Numeric}.

(** [path.exists()] *)
Definition exists_ (path : string) : io bool :=
  fun dir => (Ok (bool_decide (is_Some (files dir !! path))), dir).

(** Opening [path] for writing and storing [content]. *)
Definition write (path : string) (content : artifact) : io unit :=
  fun dir =>
    if decide (path ∈ locked dir)
    then (Raise (Exception (py "Permission denied")), dir)
    else (Ok (), {| files := <[path := content]> (files dir); locked := locked dir |}).

(** [pickle.load] of a list of metadata dictionaries. *)
Definition pickle_load_metadata (path : string) : io (list meta_dict) :=
  fun dir =>
    match files dir !! path with
    | Some (PickledMetadata m) => (Ok m, dir)
    | _ => (Raise (Exception (py "could not unpickle")), dir)
    end.

(** [pickle.load] of a list of chunk texts. *)
Definition pickle_load_chunks (path : string) : io (list pystr) :=
  fun dir =>
    match files dir !! path with
    | Some (PickledChunks c) => (Ok c, dir)
    | _ => (Raise (Exception (py "could not unpickle")), dir)
    end.
End Fs.
End Fs.

Module Faiss.
Section Faiss.
Context {Nm : Numeric}.

(** [index.ntotal] *)
Definition ntotal (index : faiss_index) : Z := Py.len (vectors index).

(** [faiss.IndexFlatIP(dim)] *)
Definition IndexFlatIP (dim : Z) : faiss_index := {| d := dim; vectors := [] |}.

(** [index.add(x)]: the rows of [x] are appended; a row of another
    dimension is refused. *)
Definition add (index : faiss_index) (x : ndarray) : result faiss_index :=
  if forallb (fun v => Py.len v =? d index) x
  then Ok {| d := d index; vectors := vectors index ++ x |}
  else Raise (Exception (py "AssertionError")).

(** [faiss.write_index(index, path)] *)
Definition write_index (index : faiss_index) (path : string) : io unit :=
  Fs.write path (FaissBinary index).

(** [faiss.read_index(path)] *)
Definition read_index (path : string) : io faiss_index :=
  fun dir =>
    match files dir !! path with
    | Some (FaissBinary i) => (Ok i, dir)
    | _ => (Raise (Exception (py "could not read index")), dir)
    end.
End Faiss.
End Faiss.

(** ** [ingest.py]: class [DocumentIngester] *)

(** An entry of the sources directory. *)
Record source_file `{Parsers} := {
  name : string;
  content : raw
}.

Module DocumentIngester.

(** The attributes set by [__init__] (the embedding model itself is the
    [Embedder] capability). *)
Record t := {
  embedding_dim : Z;
  chunk_size : Z;
  chunk_overlap : Z
}.

Definition init : t :=
  {| embedding_dim := 384; chunk_size := 1000; chunk_overlap := 200 |}.

Section Extract.
Context {P : Parsers}.

Definition newline : pystr := [10%N].

Definition extract_text_from_pdf (file_path : source_file) : result pystr :=
  catch
    (pages ← PdfReader_pages (content file_path);
     let text :=
       fold_left
         (fun text page_text =>
            if Py.truthy (Py.strip page_text)
            then text ++ page_text ++ newline
            else text)
         pages [] in
     Ok (Py.strip text))
    (fun e => Ok []).

Definition extract_text_from_docx (file_path : source_file) : result pystr :=
  catch
    (paragraphs ← Document_paragraphs (content file_path);
     let text :=
       fold_left (fun text paragraph => text ++ paragraph ++ newline) paragraphs [] in
     Ok (Py.strip text))
    (fun e => Ok []).

Definition extract_text_from_txt (file_path : source_file) : result pystr :=
  catch
    (text ← read_utf8 (content file_path);
     Ok (Py.strip text))
    (fun e => Ok []).

(** [c.lower()] on an ASCII letter. *)
Definition lower_ascii (c : ascii) : ascii :=
  let n := nat_of_ascii c in
  if ((65 <=? n) && (n <=? 90))%nat then ascii_of_nat (n + 32) else c.

Fixpoint lower (s : string) : string :=
  match s with
  | EmptyString => EmptyString
  | String c s' => String (lower_ascii c) (lower s')
  end.

(** Index of the last ['.'] of [s], offset by [i]; [None] without one. *)
Fixpoint rfind_dot (s : string) (i : nat) : option nat :=
  match s with
  | EmptyString => None
  | String c s' =>
      match rfind_dot s' (S i) with
      | Some j => Some j
      | None => if Ascii.eqb c "."%char then Some i else None
      end
  end.

(** [PurePath.suffix]: the part of the name from its last dot on, when
    that dot is neither the first nor the last character. *)
Definition suffix (file_name : string) : string :=
  match rfind_dot file_name 0 with
  | Some i =>
      if ((0 <? i) && (i <? String.length file_name - 1))%nat
      then substring i (String.length file_name - i) file_name
      else EmptyString
  | None => EmptyString
  end.

Definition extract_text (file_path : source_file) : result pystr :=
  let file_extension := lower (suffix (name file_path)) in
  if String.eqb file_extension ".pdf" then extract_text_from_pdf file_path
  else if String.eqb file_extension ".docx" || String.eqb file_extension ".doc"
  then extract_text_from_docx file_path
  else if String.eqb file_extension ".txt" then extract_text_from_txt file_path
  else Ok [].

(** [s.endswith(ext)] *)
Definition endswith (s ext : string) : bool :=
  ((String.length ext <=? String.length s)%nat
   && String.eqb (substring (String.length s - String.length ext) (String.length ext) s) ext).

(** [sources_dir.glob("*" + ext)] over the listing of the directory. *)
Definition glob (sources_dir : list source_file) (ext : string) : list source_file :=
  filter (fun f => Is_true (endswith (name f) ext)) sources_dir.

End Extract.

Section Clean.
Context {U : UnicodeData}.

(** [chr(c).isalnum()] *)
Definition isalnum (c : N) : bool :=
  (if c <? 128
   then ((48 <=? c) && (c <=? 57)) || ((65 <=? c) && (c <=? 90)) || ((97 <=? c) && (c <=? 122))
   else unicode_alnum c)%N.

(** The class [\w]. *)
Definition is_word (c : N) : bool := (isalnum c || (c =? 95))%N.

(** The characters kept by the class [[^\w\s\.\,\!\?\;\:\-\(\)]]. *)
Definition allowed (c : N) : bool :=
  (is_word c || Py.isspace c
   || (c =? 46) || (c =? 44) || (c =? 33) || (c =? 63) || (c =? 59)
   || (c =? 58) || (c =? 45) || (c =? 40) || (c =? 41))%N.

(** [re.sub(r'\s+', ' ', text)]; [in_run] tells that the previous
    character belonged to the whitespace run being replaced. *)
Fixpoint sub_whitespace (in_run : bool) (text : pystr) : pystr :=
  match text with
  | [] => []
  | c :: rest =>
      if Py.isspace c
      then (if in_run then sub_whitespace true rest else 32%N :: sub_whitespace true rest)
      else c :: sub_whitespace false rest
  end.

(** [re.sub(r'[^\w\s\.\,\!\?\;\:\-\(\)]', '', text)] *)
Definition sub_special (text : pystr) : pystr :=
  filter (fun c => Is_true (allowed c)) text.

Definition clean_text (text : pystr) : pystr :=
  let text := sub_whitespace false text in
  let text := sub_special text in
  Py.strip text.

End Clean.

Section Chunk.

(** The value of [end] after lines 107-114, for the window starting at
    [start]. *)
Definition window_end (self : t) (text : pystr) (start : Z) : Z :=
  let end_ := start + chunk_size self in
  if end_ <? Py.len text then
    let sentence_end := Py.rfind 46%N text start end_ in
    if sentence_end >? start + chunk_size self - 100
    then sentence_end + 1
    else end_
  else end_.

(** The [while] loop; [fuel] bounds the number of iterations, and
    [None] tells that the loop is still running after [fuel] of them. *)
Fixpoint chunk_loop (fuel : nat) (self : t) (text : pystr) (start : Z)
    (chunks : list pystr) : option (list pystr) :=
  match fuel with
  | O => None
  | S fuel' =>
      if start <? Py.len text then
        let end_ := window_end self text start in
        let chunk := Py.strip (Py.slice text start end_) in
        let chunks := if Py.truthy chunk then chunks ++ [chunk] else chunks in
        let start := end_ - chunk_overlap self in
        if start >=? Py.len text then Some chunks
        else chunk_loop fuel' self text start chunks
      else Some chunks
  end.

Definition chunk_text (fuel : nat) (self : t) (text : pystr) : option (list pystr) :=
  if Py.len text <=? chunk_size self then Some [text]
  else chunk_loop fuel self text 0 [].

End Chunk.

Section Index.
Context {Nm : Numeric} {E : Embedder}.

Definition create_embeddings (texts : list pystr) : result ndarray :=
  catch
    (embeddings ← encode texts;
     Ok embeddings)
    (fun e => Ok []).

Definition save_index (index : faiss_index) (metadata : list meta_dict) : io unit :=
  io_catch
    (_ ← Faiss.write_index index "faiss_index.bin";
     Fs.write "metadata.pkl" (PickledMetadata metadata))
    (fun e => mret ()).

Definition load_index : io (option faiss_index * list meta_dict) :=
  io_catch
    (let index_file := "faiss_index.bin" in
     let metadata_file := "metadata.pkl" in
     index_exists ← Fs.exists_ index_file;
     metadata_exists ← Fs.exists_ metadata_file;
     if negb index_exists || negb metadata_exists then mret (None, [])
     else
       index ← Faiss.read_index index_file;
       metadata ← Fs.pickle_load_metadata metadata_file;
       mret (Some index, metadata))
    (fun e => mret (None, [])).

End Index.

Section Process.
Context {P : Parsers} {U : UnicodeData} {Nm : Numeric} {E : Embedder}.

(** The metadata appended for the chunks of one file (lines 215-222):
    [i] is the position of the first chunk of [chunks] in the file's
    chunk list, of length [total]. *)
Fixpoint chunk_metadata (file_name : string) (total : Z) (i : Z)
    (chunks : list pystr) : list meta_dict :=
  match chunks with
  | [] => []
  | chunk :: rest =>
      {| source := file_name; chunk_id := i; total_chunks := total;
         text_length := Py.len chunk |}
      :: chunk_metadata file_name total (i + 1) rest
  end.

(** The loop over the files (lines 197-222), from the accumulators
    [all_chunks] and [all_metadata]; [None] when a call of [chunk_text]
    needs more than [fuel] iterations. *)
Fixpoint process_files (fuel : nat) (self : t) (files : list source_file)
    (all_chunks : list pystr) (all_metadata : list meta_dict)
    : option (result (list pystr * list meta_dict)) :=
  match files with
  | [] => Some (Ok (all_chunks, all_metadata))
  | file_path :: rest =>
      match extract_text file_path with
      | Raise e => Some (Raise e)
      | Ok text =>
          if negb (Py.truthy text) then process_files fuel self rest all_chunks all_metadata
          else
            let text := clean_text text in
            match chunk_text fuel self text with
            | None => None
            | Some chunks =>
                process_files fuel self rest
                  (all_chunks ++ chunks)
                  (all_metadata ++ chunk_metadata (name file_path) (Py.len chunks) 0 chunks)
            end
      end
  end.

Definition supported_extensions : list string := [".pdf"; ".docx"; ".doc"; ".txt"]%string.

(** The files found by the loop of lines 179-182. *)
Definition supported_files (sources_dir : list source_file) : list source_file :=
  concat (map (glob sources_dir) supported_extensions).

(** A number of iterations that is enough for the chunking of every
    file of [files]. *)
Definition fuel_for (files : list source_file) : nat :=
  S (max_list
       (map (fun file_path =>
               match extract_text file_path with
               | Ok text => length (clean_text text)
               | Raise _ => O
               end)
            files)).

(** [process_documents]: the result and the index directory it leaves;
    [None] when a call of [chunk_text] needs more than [fuel]
    iterations. The handler of the outer [try] raises again what it
    caught. *)
Definition process_documents (fuel : nat) (self : t) (sources_dir : list source_file)
    (index_dir : directory) : option (result unit * directory) :=
  let files := supported_files sources_dir in
  if negb (Py.truthy files) then Some (Ok (), index_dir)
  else
    match load_index index_dir with
    | (Raise e, index_dir) => Some (Raise e, index_dir)
    | (Ok (existing_index, existing_metadata), index_dir) =>
        match process_files fuel self files [] [] with
        | None => None
        | Some (Raise e) => Some (Raise e, index_dir)
        | Some (Ok (all_chunks, all_metadata)) =>
            if negb (Py.truthy all_chunks) then Some (Ok (), index_dir)
            else
              match create_embeddings all_chunks with
              | Raise e => Some (Raise e, index_dir)
              | Ok embeddings =>
                  if size embeddings =? 0 then Some (Ok (), index_dir)
                  else
                    let merged :=
                      match existing_index with
                      | Some existing_index =>
                          index ← Faiss.add existing_index embeddings;
                          Ok (index, existing_metadata ++ all_metadata)
                      | None =>
                          index ← Faiss.add (Faiss.IndexFlatIP (embedding_dim self)) embeddings;
                          Ok (index, all_metadata)
                      end in
                    match merged with
                    | Raise e => Some (Raise e, index_dir)
                    | Ok (index, all_metadata) =>
                        Some (save_index index all_metadata index_dir)
                    end
              end
        end
    end.

End Process.

End DocumentIngester.

(** ** [rag.py]: class [RAGProcessor] *)

Module RAGProcessor.

(** The attributes set by [__init__]; [openai_client] holds the API key
    of the client, or [None]. *)
Record t := {
  embedding_dim : Z;
  openai_client : option pystr;
  openai_model : pystr;
  max_context_length : Z;
  top_k : Z
}.

(** [__init__]; [getenv] is [os.getenv("OPENAI_API_KEY")]. *)
Definition init (openai_api_key : option pystr) (getenv : option pystr)
    (openai_model : pystr) : t :=
  let api_key :=
    match openai_api_key with
    | Some k => if Py.truthy k then Some k else getenv
    | None => getenv
    end in
  {| embedding_dim := 384;
     openai_client :=
       match api_key with
       | Some k => if Py.truthy k then Some k else None
       | None => None
       end;
     openai_model := openai_model;
     max_context_length := 4000;
     top_k := 5 |}.

Section Retrieval.
Context {Nm : Numeric} {E : Embedder} {V : VectorSearch}.

(** An entry of the evidence list. *)
Record evidence := {
  text : pystr;
  metadata : meta_dict;
  score : scalar
}.

Definition load_index : io (option faiss_index * list meta_dict) :=
  io_catch
    (let index_file := "faiss_index.bin" in
     let metadata_file := "metadata.pkl" in
     index_exists ← Fs.exists_ index_file;
     metadata_exists ← Fs.exists_ metadata_file;
     if negb index_exists || negb metadata_exists then mret (None, [])
     else
       index ← Faiss.read_index index_file;
       metadata ← Fs.pickle_load_metadata metadata_file;
       mret (Some index, metadata))
    (fun e => mret (None, [])).

Definition create_query_embedding (query : pystr) : result ndarray :=
  catch
    (embedding ← encode [query];
     Ok embedding)
    (fun e => Ok []).

(** The loop of lines 90-96 over the zipped search result. *)
Fixpoint collect (metadata : list meta_dict) (chunks : list pystr)
    (results : list (scalar * Z)) (relevant_chunks : list evidence)
    : result (list evidence) :=
  match results with
  | [] => Ok relevant_chunks
  | (score, idx) :: rest =>
      if (idx <? Py.len chunks) && (idx <? Py.len metadata) then
        chunk ← getitem chunks idx;
        entry ← getitem metadata idx;
        collect metadata chunks rest
          (relevant_chunks ++ [{| text := chunk; metadata := entry; score := score |}])
      else collect metadata chunks rest relevant_chunks
  end.

(** Insertion of [x] before the first entry whose score is not above
    that of [x]. *)
Fixpoint insert_desc (x : evidence) (l : list evidence) : list evidence :=
  match l with
  | [] => [x]
  | y :: l' =>
      if scalar_leb (score y) (score x) then x :: l
      else y :: insert_desc x l'
  end.

(** [l.sort(key=lambda x: x['score'], reverse=True)]: the stable sort
    by decreasing score. *)
Definition sort_by_score_desc (l : list evidence) : list evidence :=
  foldr insert_desc [] l.

Definition retrieve_relevant_chunks (self : t) (query : pystr) (index : faiss_index)
    (metadata : list meta_dict) (chunks : list pystr) : result (list evidence) :=
  catch
    (query_embedding ← create_query_embedding query;
     if size query_embedding =? 0 then Ok []
     else
       '(scores, indices) ← search index query_embedding
                              (Z.min (top_k self) (Faiss.ntotal index));
       relevant_chunks ← collect metadata chunks (zip scores indices) [];
       Ok (sort_by_score_desc relevant_chunks))
    (fun e => Ok []).

Definition load_chunks : io (list pystr) :=
  io_catch
    (let chunks_file := "chunks.pkl" in
     chunks_exists ← Fs.exists_ chunks_file;
     if negb chunks_exists then mret []
     else Fs.pickle_load_chunks chunks_file)
    (fun e => mret []).

(** The dictionary returned by [get_knowledge_base_stats]. The list
    [list(set(...))] of the sources has no specified order; the model
    keeps the set. [error] is present in the dictionary of the handler
    only. *)
Record stats := {
  total_documents : Z;
  total_chunks : Z;
  total_vectors : Z;
  sources : gset string;
  error : option pystr
}.

Definition get_knowledge_base_stats : io stats :=
  io_catch
    ('(index, metadata) ← load_index;
     chunks ← load_chunks;
     match index with
     | None =>
         mret {| total_documents := 0; total_chunks := 0; total_vectors := 0;
                 sources := ∅; error := None |}
     | Some index =>
         let sources : gset string := list_to_set (map source metadata) in
         mret {| total_documents := Z.of_nat (base.size sources);
                 total_chunks := Py.len chunks;
                 total_vectors := Faiss.ntotal index;
                 sources := sources;
                 error := None |}
     end)
    (fun e =>
       mret {| total_documents := 0; total_chunks := 0; total_vectors := 0;
               sources := ∅; error := Some (str_exn e) |}).

End Retrieval.

Section Answer.
Context {Nm : Numeric} {E : Embedder} {V : VectorSearch} {C : ChatModel}.

Definition quote : pystr := [34%N].
Definition newline : pystr := [10%N].

Definition _generate_mock_response (query : pystr) (context_chunks : list evidence) : pystr :=
  if negb (Py.truthy context_chunks) then
    py "I don't have enough information in my knowledge base to answer your question. Please upload some documents first."
  else
    let context_summary :=
      Py.join (py " ") (map (fun chunk => Py.prefix (text chunk) 200) (Py.prefix context_chunks 2)) in
    py "Based on the documents in my knowledge base, here's what I found related to your question: "
    ++ quote ++ query ++ quote ++ newline ++ newline
    ++ Py.prefix context_summary 300 ++ py "..." ++ newline ++ newline
    ++ py "Note: This is a mock response. To get more accurate answers, please configure your OpenAI API key in the environment variables.".

Definition system_prompt : pystr :=
  py "You are an AI assistant that helps users by answering questions based on the provided context. "
  ++ newline
  ++ py "            Use only the information from the context to answer questions. If the context doesn't contain enough information "
  ++ newline
  ++ py "            to answer the question, say so clearly. Be helpful, accurate, and concise in your responses.".

Definition generate_response (self : t) (query : pystr) (context_chunks : list evidence)
    : result pystr :=
  catch
    (match openai_client self with
     | None => Ok (_generate_mock_response query context_chunks)
     | Some _ =>
         let context := Py.join (newline ++ newline) (map text context_chunks) in
         let user_prompt :=
           py "Context:" ++ newline ++ context ++ newline ++ newline
           ++ py "Question: " ++ query ++ newline ++ newline
           ++ py "Please provide a helpful answer based on the context above." in
         response ← chat_completions_create (openai_model self) system_prompt user_prompt;
         Ok (Py.strip response)
     end)
    (fun e =>
       Ok (py "I apologize, but I encountered an error while generating a response: "
           ++ str_exn e)).

Definition no_knowledge_base : pystr :=
  py "No knowledge base found. Please upload and process some documents first.".

Definition no_text_chunks : pystr :=
  py "No text chunks found. Please re-process your documents.".

Definition no_relevant_information : pystr :=
  py "I couldn't find relevant information in my knowledge base to answer your question.".

Definition error_while_processing (e : exn) : pystr :=
  py "I apologize, but I encountered an error while processing your question: " ++ str_exn e.

Definition process_query (self : t) (query : pystr) : io pystr :=
  io_catch
    ('(index, metadata) ← load_index;
     match index with
     | None => mret no_knowledge_base
     | Some index =>
         chunks ← load_chunks;
         if negb (Py.truthy chunks) then mret no_text_chunks
         else
           relevant_chunks ← io_lift (retrieve_relevant_chunks self query index metadata chunks);
           if negb (Py.truthy relevant_chunks) then mret no_relevant_information
           else
             response ← io_lift (generate_response self query relevant_chunks);
             mret response
     end)
    (fun e => mret (error_while_processing e)).

End Answer.

End RAGProcessor.

(** ** [app.py]: the request handlers *)

(** The web framework: [str_http_exception status detail] is
    [str(HTTPException(status_code=status, detail=detail))]. *)
Class Framework := { str_http_exception : Z → pystr → pystr }.

Module App.

(** What the body of a handler may raise: an [HTTPException], or an
    exception of the retrieval core. Both are instances of
    [Exception]. *)
Inductive app_exn :=
| Http (status_code : Z) (detail : pystr)
| Internal (e : exn).

(** The JSON bodies of the responses. *)
Inductive json :=
| UploadContent (message : pystr) (files : list string)
| ChatContent (response : pystr) (query : pystr)
| MessageContent (message : pystr).

(** What a handler gives to the framework: a response, or an
    [HTTPException] that leaves the handler. *)
Inductive outcome :=
| JSONResponse (status_code : Z) (body : json)
| HTTPException (status_code : Z) (detail : pystr).

(** The result of the [try] block of a handler. *)
Inductive attempt (A : Type) :=
| Done (a : A)
| Failed (e : app_exn).
Arguments Done {A} a.
Arguments Failed {A} e.

Section Handlers.
Context {P : Parsers} {U : UnicodeData} {Nm : Numeric} {E : Embedder}
        {V : VectorSearch} {C : ChatModel} {F : Framework}.

(** The two data directories. *)
Record world := {
  SOURCES_DIR : list source_file;
  INDEX_DIR : directory
}.

(** An uploaded file: its name and its bytes. *)
Record UploadFile := {
  filename : string;
  file : raw
}.

(** [str(e)] *)
Definition str_app_exn (e : app_exn) : pystr :=
  match e with
  | Http status_code detail => str_http_exception status_code detail
  | Internal e => str_exn e
  end.

(** [except Exception as e: raise HTTPException(status_code=500, detail=str(e))] *)
Definition or_500 (body : attempt outcome) : outcome :=
  match body with
  | Done response => response
  | Failed e => HTTPException 500 (str_app_exn e)
  end.

(** [file.filename.lower().endswith(('.pdf', '.doc', '.docx', '.txt'))] *)
Definition accepted (file_name : string) : bool :=
  existsb (DocumentIngester.endswith (DocumentIngester.lower file_name))
    [".pdf"; ".doc"; ".docx"; ".txt"]%string.

(** Writing the file [file_name] of the sources directory: a file of
    that name is replaced, otherwise the file is new. *)
Fixpoint write_source (sources_dir : list source_file) (file_name : string) (data : raw)
    : list source_file :=
  match sources_dir with
  | [] => [{| name := file_name; content := data |}]
  | f :: rest =>
      if String.eqb (name f) file_name
      then {| name := file_name; content := data |} :: rest
      else f :: write_source rest file_name data
  end.

(** The loop of [upload_documents] (lines 50-60): the sources directory
    it leaves, with the list of the uploaded names or the exception that
    stopped it. *)
Fixpoint save_uploads (files : list UploadFile) (sources_dir : list source_file)
    (uploaded_files : list string) : attempt (list string) * list source_file :=
  match files with
  | [] => (Done uploaded_files, sources_dir)
  | f :: rest =>
      if negb (accepted (filename f))
      then (Failed (Http 400 (py "Unsupported file type: " ++ Py.of_string (filename f))),
            sources_dir)
      else
        save_uploads rest (write_source sources_dir (filename f) (file f))
          (uploaded_files ++ [filename f])
  end.

(** [upload_documents]; [None] when the chunking needs more than [fuel]
    iterations. *)
Definition upload_documents (fuel : nat) (files : list UploadFile) (w : world)
    : option (outcome * world) :=
  match save_uploads files (SOURCES_DIR w) [] with
  | (Failed e, sources_dir) =>
      Some (or_500 (Failed e), {| SOURCES_DIR := sources_dir; INDEX_DIR := INDEX_DIR w |})
  | (Done uploaded_files, sources_dir) =>
      match DocumentIngester.process_documents fuel DocumentIngester.init
              sources_dir (INDEX_DIR w) with
      | None => None
      | Some (r, index_dir) =>
          let w' := {| SOURCES_DIR := sources_dir; INDEX_DIR := index_dir |} in
          match r with
          | Raise e => Some (or_500 (Failed (Internal e)), w')
          | Ok _ =>
              Some (or_500
                      (Done (JSONResponse 200
                               (UploadContent
                                  (py "Successfully uploaded and processed "
                                   ++ Py.of_string (pretty (length uploaded_files))
                                   ++ py " files")
                                  uploaded_files))),
                    w')
          end
      end
  end.

(** [chat_with_ai]; [message] is the value of the key ["message"] of
    the request body, when it has one. *)
Definition chat_with_ai (rag_processor : RAGProcessor.t) (message : option pystr) (w : world)
    : outcome * world :=
  let user_message := default [] message in
  if negb (Py.truthy user_message)
  then (or_500 (Failed (Http 400 (py "Message is required"))), w)
  else
    match RAGProcessor.process_query rag_processor user_message (INDEX_DIR w) with
    | (Ok response, index_dir) =>
        (or_500 (Done (JSONResponse 200 (ChatContent response user_message))),
         {| SOURCES_DIR := SOURCES_DIR w; INDEX_DIR := index_dir |})
    | (Raise e, index_dir) =>
        (or_500 (Failed (Internal e)),
         {| SOURCES_DIR := SOURCES_DIR w; INDEX_DIR := index_dir |})
    end.

(** [file_path.exists()] in the sources directory. *)
Definition source_exists (sources_dir : list source_file) (file_name : string) : bool :=
  existsb (fun f => String.eqb (name f) file_name) sources_dir.

(** [file_path.unlink()] *)
Definition unlink (sources_dir : list source_file) (file_name : string) : list source_file :=
  List.filter (fun f => negb (String.eqb (name f) file_name)) sources_dir.

(** [delete_document]; [None] when the chunking needs more than [fuel]
    iterations. *)
Definition delete_document (fuel : nat) (file_name : string) (w : world)
    : option (outcome * world) :=
  if negb (source_exists (SOURCES_DIR w) file_name)
  then Some (or_500 (Failed (Http 404 (py "Document not found"))), w)
  else
    let sources_dir := unlink (SOURCES_DIR w) file_name in
    match DocumentIngester.process_documents fuel DocumentIngester.init
            sources_dir (INDEX_DIR w) with
    | None => None
    | Some (r, index_dir) =>
        let w' := {| SOURCES_DIR := sources_dir; INDEX_DIR := index_dir |} in
        match r with
        | Raise e => Some (or_500 (Failed (Internal e)), w')
        | Ok _ =>
            Some (or_500
                    (Done (JSONResponse 200
                             (MessageContent
                                (py "Document " ++ Py.of_string file_name
                                 ++ py " deleted successfully")))),
                  w')
        end
    end.

End Handlers.

End App.

(** ** Properties stated about the outputs *)

(** Two neighbouring whitespace characters somewhere in [s]. *)
Fixpoint whitespace_run (s : pystr) : bool :=
  match s with
  | c1 :: ((c2 :: _) as rest) => (Py.isspace c1 && Py.isspace c2) || whitespace_run rest
  | _ => false
  end.

(** A chunk that is not empty after [strip()]. *)
Definition nonblank (chunk : pystr) : Prop := Py.strip chunk ≠ [].

(** [a] stands before [b] in an evidence list sorted by decreasing
    score. *)
Definition score_ge `{Numeric} (a b : RAGProcessor.evidence) : Prop :=
  scalar_leb (RAGProcessor.score b) (RAGProcessor.score a) = true.

(** The evidence entry of the search result [(score, idx)] when [idx]
    is a position of both lists. *)
Definition entry_at `{Numeric} (metadata : list meta_dict) (chunks : list pystr)
    (r : scalar * Z) : option RAGProcessor.evidence :=
  match chunks !! Z.to_nat r.2, metadata !! Z.to_nat r.2 with
  | Some chunk, Some entry =>
      Some {| RAGProcessor.text := chunk; RAGProcessor.metadata := entry;
              RAGProcessor.score := r.1 |}
  | _, _ => None
  end.

(** [dir'] differs from [dir] at most in the two files written by
    [save_index]. *)
Definition same_outside_index `{Numeric} (dir dir' : directory) : Prop :=
  locked dir' = locked dir
  ∧ ∀ path : string,
      path ≠ "faiss_index.bin"%string → path ≠ "metadata.pkl"%string →
      files dir' !! path = files dir !! path.

(** [chunk] is a contiguous piece of [text]. *)
Definition piece_of (text chunk : pystr) : Prop :=
  ∃ before after, text = before ++ chunk ++ after.

(** Neither the first nor the last character of [s] is whitespace. *)
Definition trimmed (s : pystr) : Prop :=
  (∀ c rest, s = c :: rest → Py.isspace c = false)
  ∧ (∀ c front, s = front ++ [c] → Py.isspace c = false).

(** The metadata entry [entry] describes the chunk [chunk] of one of
    [files]. *)
Definition describes `{Parsers} (files : list source_file) (chunk : pystr)
    (entry : meta_dict) : Prop :=
  text_length entry = Py.len chunk
  ∧ 0 <= chunk_id entry < total_chunks entry
  ∧ ∃ file_path, file_path ∈ files ∧ source entry = name file_path.

(** The answer of a handler is a response of status 200 or an error of
    status 500. *)
Definition ok_or_500 (o : App.outcome) : Prop :=
  (∃ body, o = App.JSONResponse 200 body) ∨ (∃ detail, o = App.HTTPException 500 detail).

(** ** Concrete capabilities and inputs *)

Module Demo.

(** No alphanumeric character beyond ASCII; the texts below are ASCII. *)
Definition ascii_only : UnicodeData := {| unicode_alnum := fun _ => false |}.

(** Files whose content is their decoded text; they are neither PDF nor
    Word documents. *)
Definition text_files : Parsers :=
  {| raw := pystr;
     PdfReader_pages := fun _ => Raise (Exception (py "not a PDF file"));
     Document_paragraphs := fun _ => Raise (Exception (py "not a Word file"));
     read_utf8 := fun content => Ok content |}.

(** Integer scores. *)
Definition integers : Numeric := {| scalar := Z; scalar_leb := Z.leb |}.

(** An embedding model that fails on every batch. *)
Definition failing_model : @Embedder integers :=
  {| encode := fun _ => Raise (Exception (py "model unavailable")) |}.

(** An embedding model that maps every text to the same vector of
    dimension 384. *)
Definition constant_model : @Embedder integers :=
  {| encode := fun texts => Ok (map (fun _ => replicate 384 (0 : @scalar integers)) texts) |}.

(** A search that fills the third of its three results with the label
    [-1], the label FAISS gives to a result it did not find. *)
Definition sentinel_search : @VectorSearch integers :=
  {| search := fun _ _ _ => Ok ([9; 7; 0] : list (@scalar integers), [1; 0; -1]) |}.

(** A search that returns the first [k] positions, and refuses
    [k <= 0]. *)
Definition first_k_search : @VectorSearch integers :=
  {| search := fun _ _ k =>
       if k <=? 0 then Raise (Exception (py "AssertionError"))
       else Ok (replicate (Z.to_nat k) (0 : @scalar integers),
                map Z.of_nat (seq 0 (Z.to_nat k))) |}.

(** A search whose second label lies below every list. *)
Definition wild_search : @VectorSearch integers :=
  {| search := fun _ _ _ => Ok ([9; 7] : list (@scalar integers), [0; -7]) |}.

(** A framework whose [HTTPException] prints as its detail. *)
Definition plain_framework : Framework := {| str_http_exception := fun _ detail => detail |}.

(** A chat endpoint that refuses every request. *)
Definition failing_chat : ChatModel :=
  {| chat_completions_create := fun _ _ _ => Raise (Exception (py "quota exceeded")) |}.

(** A sources directory with one text file. *)
Definition sources : list (@source_file text_files) :=
  [@Build_source_file text_files "a.txt" (py "hello world")].

(** An index directory without files. *)
Definition empty_dir : @directory integers := @Build_directory integers ∅ ∅.

Definition meta (n : Z) : meta_dict :=
  {| source := "a.txt"; chunk_id := n; total_chunks := 3; text_length := 1 |}.

(** An index of three vectors of dimension 1. *)
Definition three_vectors : @faiss_index integers :=
  @Build_faiss_index integers 1 [[1]; [2]; [3]].

(** An index directory holding [three_vectors], the metadata of three
    chunks and their texts. *)
Definition full_dir : @directory integers :=
  @Build_directory integers
    (<["faiss_index.bin" := FaissBinary three_vectors]>
       (<["metadata.pkl" := PickledMetadata [meta 0; meta 1; meta 2]]>
          (<["chunks.pkl" := PickledChunks [py "a"; py "b"; py "c"]]> ∅)))
    ∅.

Definition processor : RAGProcessor.t := RAGProcessor.init None None (py "gpt-3.5-turbo").

(** The vector that [constant_model] gives to every text. *)
Definition row : list (@scalar integers) := replicate 384 (0 : @scalar integers).

(** An index directory whose index file cannot be written. *)
Definition locked_dir : @directory integers :=
  @Build_directory integers ∅ {["faiss_index.bin"%string]}.

(** A text of 1300 characters. *)
Definition long_text : pystr := concat (replicate 100 (py "hello world. ")).

(** The metadata of the single chunk of [sources]. *)
Definition hello_metadata : meta_dict :=
  {| source := "a.txt"; chunk_id := 0; total_chunks := 1; text_length := 11 |}.

(** The index directory after the ingestion of [sources] into
    [empty_dir] with [constant_model]. *)
Definition ingested_dir : @directory integers :=
  @Build_directory integers
    (<["metadata.pkl" := PickledMetadata [hello_metadata]]>
       (<["faiss_index.bin" := FaissBinary (@Build_faiss_index integers 384 [replicate 384 0])]> ∅))
    ∅.

Definition evidence_of (chunk : pystr) (entry : meta_dict) (score : Z) : RAGProcessor.evidence :=
  @RAGProcessor.Build_evidence integers chunk entry score.

(** Uploaded files: a text file, a program, and a text file whose
    extension is written in upper case. *)
Definition upload_text : @App.UploadFile text_files :=
  @App.Build_UploadFile text_files "a.txt" (py "hello world").

Definition upload_program : @App.UploadFile text_files :=
  @App.Build_UploadFile text_files "b.exe" (py "MZ").

Definition upload_upper : @App.UploadFile text_files :=
  @App.Build_UploadFile text_files "REPORT.TXT" (py "hello world").

(** The data directories before any upload, and after the ingestion of
    [sources]. *)
Definition empty_world : @App.world text_files integers :=
  @App.Build_world text_files integers [] empty_dir.

Definition ingested_world : @App.world text_files integers :=
  @App.Build_world text_files integers sources ingested_dir.

End Demo.

(** * Properties of the string operations *)

Section StringFacts.

Lemma lstrip_idemp s : Py.lstrip (Py.lstrip s) = Py.lstrip s.
Proof.
  induction s as [|c t IH]; simpl; [done|].
  destruct (Py.isspace c) eqn:E; [done|]. simpl. by rewrite E.
Qed.

Lemma rstrip_idemp s : Py.rstrip (Py.rstrip s) = Py.rstrip s.
Proof.
  induction s as [|c t IH]; simpl; [done|].
  destruct (Py.rstrip t) as [|r0 r] eqn:E.
  - destruct (Py.isspace c) eqn:Ec; simpl; [done|]. by rewrite Ec.
  - change (Py.rstrip (c :: r0 :: r)) with
      (match Py.rstrip (r0 :: r) with
       | [] => if Py.isspace c then [] else [c]
       | x => c :: x
       end).
    by rewrite IH.
Qed.

Lemma lstrip_rstrip s : Py.lstrip (Py.rstrip s) = Py.rstrip (Py.lstrip s).
Proof.
  induction s as [|c t IH]; simpl; [done|].
  destruct (Py.isspace c) eqn:Ec.
  - rewrite <- IH. destruct (Py.rstrip t) eqn:E; simpl; [done|]. by rewrite Ec.
  - simpl. destruct (Py.rstrip t) eqn:E; simpl; by rewrite Ec.
Qed.

Lemma strip_idemp s : Py.strip (Py.strip s) = Py.strip s.
Proof.
  unfold Py.strip.
  by rewrite lstrip_rstrip, lstrip_idemp, rstrip_idemp.
Qed.

Lemma truthy_nonblank s : Py.truthy (Py.strip s) = true → nonblank (Py.strip s).
Proof.
  unfold nonblank. rewrite strip_idemp.
  by destruct (Py.strip s).
Qed.

Lemma lstrip_sublist s : ∀ c, c ∈ Py.lstrip s → c ∈ s.
Proof.
  induction s as [|x t IH]; simpl; intros c Hc; [done|].
  destruct (Py.isspace x); [right; by apply IH | done].
Qed.

Lemma rstrip_sublist s : ∀ c, c ∈ Py.rstrip s → c ∈ s.
Proof.
  induction s as [|x t IH]; simpl; intros c Hc; [done|].
  destruct (Py.rstrip t) as [|r0 r] eqn:E.
  - destruct (Py.isspace x); [by apply elem_of_nil in Hc|].
    apply list_elem_of_singleton in Hc as ->. by left.
  - apply elem_of_cons in Hc as [->|Hc]; [by left | right; by apply IH].
Qed.

Lemma strip_sublist s c : c ∈ Py.strip s → c ∈ s.
Proof. intros Hc. by apply lstrip_sublist, rstrip_sublist. Qed.

End StringFacts.

(** * The cleaner *)

Section CleanerFacts.
Context {U : UnicodeData}.
Import DocumentIngester.

Lemma sub_whitespace_only_space in_run text c :
  c ∈ sub_whitespace in_run text → Py.isspace c = true → c = 32%N.
Proof.
  revert in_run.
  induction text as [|x t IH]; simpl; intros in_run Hc Hs; [by apply elem_of_nil in Hc|].
  destruct (Py.isspace x) eqn:Ex.
  - destruct in_run; [by eapply IH|].
    apply elem_of_cons in Hc as [->|Hc]; [done | by eapply IH].
  - apply elem_of_cons in Hc as [->|Hc]; [congruence | by eapply IH].
Qed.

(** Every character of the cleaned text belongs to the allow-list, and
    the only whitespace character left is the space. *)
Lemma clean_text_allowed text c :
  c ∈ clean_text text → allowed c = true ∧ (Py.isspace c = true → c = 32%N).
Proof.
  unfold clean_text, sub_special. intros Hc.
  apply strip_sublist, list_elem_of_filter in Hc as [Ha Hc].
  split; [by apply Is_true_eq_true|].
  by eapply sub_whitespace_only_space.
Qed.

(** C6: on the input [a @ b] the whitespace runs are collapsed first and
    the [@] between the two spaces is removed afterwards, so the cleaned
    text [a  b] holds two consecutive spaces. *)
Theorem clean_text_leaves_whitespace_run :
  clean_text (py "a @ b") = py "a  b"
  ∧ whitespace_run (clean_text (py "a @ b")) = true.
Proof. split; reflexivity. Qed.

End CleanerFacts.

(** * The chunker *)

Section ChunkerFacts.
Import DocumentIngester.

Lemma window_end_progress self text start :
  window_end self text start >= start + chunk_size self - 99.
Proof.
  unfold window_end.
  destruct (_ <? Py.len text); [|lia].
  destruct (Z.gtb_spec (Py.rfind 46%N text start (start + chunk_size self))
              (start + chunk_size self - 100)); lia.
Qed.

Lemma chunk_loop_enough_fuel self text :
  chunk_overlap self + 100 <= chunk_size self →
  ∀ fuel start chunks,
    (Z.to_nat (Py.len text - start) < fuel)%nat →
    ∃ r, chunk_loop fuel self text start chunks = Some r.
Proof.
  intros Hcfg fuel.
  induction fuel as [|fuel IH]; intros start chunks Hfuel; [lia|].
  simpl.
  destruct (Z.ltb_spec start (Py.len text)) as [Hlt|Hge]; [|eauto].
  pose proof (window_end_progress self text start) as Hp.
  destruct (Z.geb_spec (window_end self text start - chunk_overlap self) (Py.len text))
    as [Hstop|Hgo]; [eauto|].
  apply IH. lia.
Qed.

Lemma chunk_loop_more_fuel self text fuel :
  ∀ start chunks r more,
    chunk_loop fuel self text start chunks = Some r →
    chunk_loop (fuel + more) self text start chunks = Some r.
Proof.
  induction fuel as [|fuel IH]; intros start chunks r more Hr; [done|].
  simpl in *.
  destruct (start <? Py.len text); [|done].
  destruct (_ >=? Py.len text); [done|].
  by apply IH.
Qed.

Lemma chunk_loop_nonblank self text fuel :
  ∀ start chunks r,
    chunk_loop fuel self text start chunks = Some r →
    Forall nonblank chunks → Forall nonblank r.
Proof.
  induction fuel as [|fuel IH]; intros start chunks r Hr Hall; [done|].
  simpl in Hr.
  destruct (start <? Py.len text); [|by simplify_eq].
  set (chunk := Py.strip (Py.slice text start (window_end self text start))) in *.
  assert (Forall nonblank (if Py.truthy chunk then chunks ++ [chunk] else chunks)) as Hall'.
  { destruct (Py.truthy chunk) eqn:E; [|done].
    apply Forall_app. split; [done|].
    apply Forall_singleton. by apply truthy_nonblank. }
  destruct (_ >=? Py.len text); [by simplify_eq|].
  by eapply IH.
Qed.

(** Under a configuration whose overlap leaves room for the snapping
    margin, [chunk_text] returns, with the same chunks for every fuel
    above the length of the text. *)
Lemma chunk_text_enough_fuel self text :
  chunk_overlap self + 100 <= chunk_size self →
  ∃ chunks, ∀ fuel, (length text < fuel)%nat → chunk_text fuel self text = Some chunks.
Proof.
  intros Hcfg. unfold chunk_text.
  destruct (Py.len text <=? chunk_size self); [eauto|].
  destruct (chunk_loop_enough_fuel self text Hcfg (S (length text)) 0 []) as [r Hr].
  { unfold Py.len. lia. }
  exists r. intros fuel Hfuel.
  replace fuel with (S (length text) + (fuel - S (length text)))%nat by lia.
  by apply chunk_loop_more_fuel.
Qed.

(** C10: under [chunk_size = 1000] and [chunk_overlap = 200] every
    iteration moves the window start forward by at least
    [chunk_size - chunk_overlap - 99] characters, also when the end is
    snapped back to a sentence boundary, and [chunk_text] returns on
    every input: any number of iterations above the length of the text
    is enough. *)
Theorem chunk_text_terminates (text : pystr) :
  (∀ start,
      (window_end init text start - chunk_overlap init) - start
      >= chunk_size init - chunk_overlap init - 99)
  ∧ (chunk_size init - chunk_overlap init - 99 > 0)
  ∧ (∃ chunks, ∀ fuel, (length text < fuel)%nat → chunk_text fuel init text = Some chunks).
Proof.
  split; [|split].
  - intros start. pose proof (window_end_progress init text start). lia.
  - by vm_compute.
  - apply chunk_text_enough_fuel. by vm_compute.
Qed.

Lemma chunk_text_terminates_witness :
  ∃ chunks, chunk_text 4 init (py "abc") = Some chunks.
Proof.
  destruct (chunk_text_terminates (py "abc")) as (_ & _ & chunks & Hfuel).
  exists chunks. apply Hfuel. simpl. lia.
Defined.

(** C7, the claim as stated fails: the empty text is returned as a
    single chunk, and that chunk is empty after trimming. *)
Lemma chunk_text_blank_chunk :
  chunk_text 1 init [] = Some [[]] ∧ ¬ Forall nonblank [[] : pystr].
Proof.
  split; [reflexivity|].
  intros Hall. rewrite Forall_singleton in Hall. by apply Hall.
Qed.

(** C7, amended: [chunk_text] returns on every text; a text of at most
    [chunk_size] characters is returned whole as the single chunk,
    whatever it holds, and for a longer text every chunk is non-empty
    after whitespace trimming. *)
Theorem chunk_text_chunks (text : pystr) :
  ∃ chunks,
    (∀ fuel, (length text < fuel)%nat → chunk_text fuel init text = Some chunks)
    ∧ (Py.len text <= chunk_size init → chunks = [text])
    ∧ (chunk_size init < Py.len text → Forall nonblank chunks).
Proof.
  destruct (chunk_text_enough_fuel init text) as [chunks Hfuel]; [by vm_compute|].
  exists chunks. split; [done|].
  specialize (Hfuel (S (length text)) ltac:(lia)).
  unfold chunk_text in Hfuel.
  destruct (Z.leb_spec (Py.len text) (chunk_size init)); split; intros; try lia.
  - by simplify_eq.
  - by eapply chunk_loop_nonblank.
Qed.

Lemma chunk_text_chunks_witness :
  ∃ chunks, chunk_text 4 init (py "abc") = Some chunks ∧ chunks = [py "abc"].
Proof.
  destruct (chunk_text_chunks (py "abc")) as (chunks & Hfuel & Hshort & _).
  exists chunks. split.
  - apply Hfuel. simpl. lia.
  - apply Hshort. by vm_compute.
Defined.

End ChunkerFacts.

(** * Persistence *)

Section PersistenceFacts.
Context {Nm : Numeric}.

Ltac io_unfold :=
  unfold DocumentIngester.load_index, RAGProcessor.load_index, RAGProcessor.load_chunks,
    DocumentIngester.save_index, io_catch, mbind, io_bind, mret, io_ret,
    Fs.exists_, Fs.write, Fs.pickle_load_metadata, Fs.pickle_load_chunks,
    Faiss.read_index, Faiss.write_index, Fs.write;
  simpl.

Lemma load_index_same (dir : directory) :
  DocumentIngester.load_index dir = RAGProcessor.load_index dir.
Proof. reflexivity. Qed.

Lemma load_index_returns (dir : directory) :
  ∃ loaded, DocumentIngester.load_index dir = (Ok loaded, dir).
Proof.
  io_unfold.
  destruct (files dir !! "faiss_index.bin"%string) as [[]|] eqn:Eidx;
    destruct (files dir !! "metadata.pkl"%string) as [[]|] eqn:Emd;
    simpl; rewrite ?Eidx, ?Emd; simpl; eauto.
Qed.

Lemma load_chunks_returns (dir : directory) :
  ∃ chunks, RAGProcessor.load_chunks dir = (Ok chunks, dir).
Proof.
  io_unfold.
  destruct (files dir !! "chunks.pkl"%string) as [[]|] eqn:Ech;
    simpl; rewrite ?Ech; simpl; eauto.
Qed.

Lemma load_chunks_absent (dir : directory) :
  files dir !! "chunks.pkl"%string = None → RAGProcessor.load_chunks dir = (Ok [], dir).
Proof. intros Hnone. io_unfold. by rewrite Hnone. Qed.

Lemma load_index_missing (dir : directory) :
  files dir !! "faiss_index.bin"%string = None ∨ files dir !! "metadata.pkl"%string = None →
  DocumentIngester.load_index dir = (Ok (None, []), dir).
Proof.
  intros Hmiss. io_unfold.
  destruct Hmiss as [-> | Hmd]; [done|].
  rewrite Hmd. by destruct (files dir !! "faiss_index.bin"%string).
Qed.

Lemma load_index_present (dir : directory) index metadata :
  files dir !! "faiss_index.bin"%string = Some (FaissBinary index) →
  files dir !! "metadata.pkl"%string = Some (PickledMetadata metadata) →
  DocumentIngester.load_index dir = (Ok (Some index, metadata), dir).
Proof.
  intros Hidx Hmd. io_unfold.
  rewrite Hidx, Hmd. simpl. by rewrite Hidx, Hmd.
Qed.

(** C9: when the index file or the metadata file is missing,
    [load_index] (of the ingester and of the query processor) returns
    [None] with an empty metadata list; when both files hold a readable
    index and a readable metadata list, it returns them; in every case
    it returns normally. *)
Theorem load_index_absent_or_loaded (dir : directory) :
  ((files dir !! "faiss_index.bin"%string = None ∨ files dir !! "metadata.pkl"%string = None) →
     DocumentIngester.load_index dir = (Ok (None, []), dir)
     ∧ RAGProcessor.load_index dir = (Ok (None, []), dir))
  ∧ (∀ index metadata,
       files dir !! "faiss_index.bin"%string = Some (FaissBinary index) →
       files dir !! "metadata.pkl"%string = Some (PickledMetadata metadata) →
       DocumentIngester.load_index dir = (Ok (Some index, metadata), dir)
       ∧ RAGProcessor.load_index dir = (Ok (Some index, metadata), dir))
  ∧ (∃ loaded,
       DocumentIngester.load_index dir = (Ok loaded, dir)
       ∧ RAGProcessor.load_index dir = (Ok loaded, dir)).
Proof.
  split; [|split].
  - intros Hmiss. split; by apply load_index_missing.
  - intros index metadata Hidx Hmd. split; by apply load_index_present.
  - destruct (load_index_returns dir) as [loaded Hl]. by exists loaded.
Qed.

Lemma save_index_frame (index : faiss_index) (metadata : list meta_dict) (dir : directory) :
  ∃ dir', DocumentIngester.save_index index metadata dir = (Ok (), dir')
          ∧ same_outside_index dir dir'.
Proof.
  io_unfold. unfold same_outside_index.
  destruct (decide ("faiss_index.bin"%string ∈ locked dir)); simpl.
  { eexists; split; [done|]. by split. }
  destruct (decide ("metadata.pkl"%string ∈ locked dir)); simpl.
  - eexists; split; [done|]. split; [done|]. intros path H1 H2; simpl.
    by rewrite lookup_insert_ne.
  - eexists; split; [done|]. split; [done|]. intros path H1 H2; simpl.
    by rewrite !lookup_insert_ne.
Qed.

Lemma save_index_writes (index : faiss_index) (metadata : list meta_dict) (dir : directory) :
  locked dir = ∅ →
  DocumentIngester.save_index index metadata dir
  = (Ok (), {| files := <["metadata.pkl"%string := PickledMetadata metadata]>
                          (<["faiss_index.bin"%string := FaissBinary index]> (files dir));
               locked := locked dir |}).
Proof.
  intros Hfree. io_unfold. rewrite Hfree.
  destruct (decide ("faiss_index.bin"%string ∈ (∅ : gset string))) as [Hin|_]; [set_solver|].
  simpl.
  destruct (decide ("metadata.pkl"%string ∈ (∅ : gset string))) as [Hin|_]; [set_solver|].
  done.
Qed.

Lemma same_outside_index_refl (dir : directory) : same_outside_index dir dir.
Proof. by split. Qed.

End PersistenceFacts.

Lemma load_index_absent_or_loaded_witness :
  RAGProcessor.load_index (Nm:=Demo.integers) Demo.empty_dir = (Ok (None, []), Demo.empty_dir)
  ∧ RAGProcessor.load_index (Nm:=Demo.integers) Demo.full_dir
    = (Ok (Some Demo.three_vectors, [Demo.meta 0; Demo.meta 1; Demo.meta 2]), Demo.full_dir).
Proof.
  split.
  - apply (load_index_absent_or_loaded Demo.empty_dir). left. reflexivity.
  - apply (load_index_absent_or_loaded Demo.full_dir); reflexivity.
Defined.

(** * The ingestion pipeline *)

Section IngestionFacts.
Context {P : Parsers} {U : UnicodeData} {Nm : Numeric} {E : Embedder}.
Import DocumentIngester.

Lemma extract_text_returns (file_path : source_file) :
  ∃ text, extract_text file_path = Ok text.
Proof.
  unfold extract_text, extract_text_from_pdf, extract_text_from_docx,
    extract_text_from_txt, catch, mbind, result_bind.
  repeat case_match; eauto.
Qed.

(** A file whose suffix is none of the supported ones yields no text. *)
Lemma extract_text_unsupported (file_path : source_file) :
  lower (suffix (name file_path)) ∉ supported_extensions →
  extract_text file_path = Ok [].
Proof.
  intros Hext. unfold extract_text.
  assert (∀ ext, ext ∈ supported_extensions →
                 String.eqb (lower (suffix (name file_path))) ext = false) as Hne.
  { intros ext Hin. apply String.eqb_neq. intros Heq. apply Hext. by rewrite Heq. }
  rewrite !Hne by (unfold supported_extensions; repeat constructor).
  done.
Qed.

(** A parser that raises yields no text. *)
Lemma extract_text_failure (file_path : source_file) e :
  (PdfReader_pages (content file_path) = Raise e → extract_text_from_pdf file_path = Ok [])
  ∧ (Document_paragraphs (content file_path) = Raise e → extract_text_from_docx file_path = Ok [])
  ∧ (read_utf8 (content file_path) = Raise e → extract_text_from_txt file_path = Ok []).
Proof.
  unfold extract_text_from_pdf, extract_text_from_docx, extract_text_from_txt.
  repeat split; intros ->; reflexivity.
Qed.

Lemma create_embeddings_failure (texts : list pystr) e :
  encode texts = Raise e → create_embeddings texts = Ok [].
Proof. unfold create_embeddings. by intros ->. Qed.


Lemma chunk_text_more_fuel self text fuel more chunks :
  chunk_text fuel self text = Some chunks →
  chunk_text (fuel + more) self text = Some chunks.
Proof.
  unfold chunk_text. destruct (_ <=? _); [done|]. apply chunk_loop_more_fuel.
Qed.

(** A file without text is skipped. *)
Lemma process_files_skip fuel self file_path rest all_chunks all_metadata :
  extract_text file_path = Ok [] →
  process_files fuel self (file_path :: rest) all_chunks all_metadata
  = process_files fuel self rest all_chunks all_metadata.
Proof. simpl. by intros ->. Qed.

Lemma process_files_more_fuel self files fuel more :
  ∀ all_chunks all_metadata r,
    process_files fuel self files all_chunks all_metadata = Some r →
    process_files (fuel + more) self files all_chunks all_metadata = Some r.
Proof.
  induction files as [|f rest IH]; intros all_chunks all_metadata r Hr; [done|].
  simpl in *.
  destruct (extract_text f) as [text|e]; [|done].
  destruct (negb (Py.truthy text)); [by apply IH|].
  destruct (chunk_text fuel self (clean_text text)) as [chunks|] eqn:Hc; [|done].
  rewrite (chunk_text_more_fuel _ _ _ more _ Hc). by apply IH.
Qed.

Lemma process_files_returns self files fuel :
  ∀ all_chunks all_metadata r,
    process_files fuel self files all_chunks all_metadata = Some r →
    ∃ gathered, r = Ok gathered.
Proof.
  induction files as [|f rest IH]; intros all_chunks all_metadata r Hr; simpl in Hr.
  { simplify_eq. eauto. }
  destruct (extract_text_returns f) as [text Ht]. rewrite Ht in Hr.
  destruct (negb (Py.truthy text)); [by eapply IH|].
  destruct (chunk_text fuel self (clean_text text)); [by eapply IH | done].
Qed.

Lemma fuel_for_bound (files : list source_file) file_path text :
  file_path ∈ files → extract_text file_path = Ok text →
  (length (clean_text text) < fuel_for files)%nat.
Proof.
  intros Hin Ht. unfold fuel_for.
  apply Nat.lt_succ_r, max_list_elem_of_le.
  apply list_elem_of_In, in_map_iff. exists file_path.
  rewrite Ht. split; [done|]. by apply list_elem_of_In.
Qed.

Lemma process_files_enough_fuel files fuel :
  (∀ file_path text, file_path ∈ files → extract_text file_path = Ok text →
                     (length (clean_text text) < fuel)%nat) →
  ∀ all_chunks all_metadata,
    ∃ r, process_files fuel init files all_chunks all_metadata = Some r.
Proof.
  induction files as [|f rest IH]; intros Hfuel all_chunks all_metadata; simpl; [eauto|].
  destruct (extract_text f) as [text|e] eqn:Ht; [|eauto].
  assert (∀ file_path text, file_path ∈ rest → extract_text file_path = Ok text →
                            (length (clean_text text) < fuel)%nat) as Hrest.
  { intros g t Hg. apply Hfuel. by right. }
  destruct (negb (Py.truthy text)); [by apply IH|].
  destruct (chunk_text_enough_fuel init (clean_text text)) as [chunks Hc]; [by vm_compute|].
  rewrite (Hc fuel); [by apply IH|].
  eapply Hfuel; [by left | done].
Qed.

Lemma supported_files_sublist (sources_dir : list source_file) file_path :
  file_path ∈ supported_files sources_dir → file_path ∈ sources_dir.
Proof.
  unfold supported_files. intros Hin.
  apply list_elem_of_In, in_concat in Hin as (l & Hl & Hin).
  apply in_map_iff in Hl as (ext & <- & _).
  apply list_elem_of_In in Hin. unfold glob in Hin.
  by apply list_elem_of_filter in Hin as [_ Hin].
Qed.

Lemma process_documents_more_fuel fuel more self sources_dir index_dir outcome :
  process_documents fuel self sources_dir index_dir = Some outcome →
  process_documents (fuel + more) self sources_dir index_dir = Some outcome.
Proof.
  unfold process_documents.
  destruct (negb (Py.truthy _)); [done|].
  destruct (load_index index_dir) as [[[existing_index existing_metadata]|e] dir']; [|done].
  destruct (process_files fuel _ _ _ _) as [r|] eqn:Hr; [|done].
  by rewrite (process_files_more_fuel _ _ _ more _ _ _ Hr).
Qed.

(** Under the configuration of [__init__] a run of [process_documents]
    returns, with the same outcome for every sufficient fuel. *)
Lemma process_documents_returns (sources_dir : list source_file) (index_dir : directory) :
  ∃ outcome, ∀ fuel, (fuel_for sources_dir ≤ fuel)%nat →
    process_documents fuel init sources_dir index_dir = Some outcome.
Proof.
  assert (∃ outcome, process_documents (fuel_for sources_dir) init sources_dir index_dir
                     = Some outcome) as [outcome Ho].
  { unfold process_documents.
    destruct (negb (Py.truthy _)); [eauto|].
    destruct (load_index_returns index_dir) as [[existing_index existing_metadata] ->].
    destruct (process_files_enough_fuel (supported_files sources_dir) (fuel_for sources_dir))
      with (all_chunks := @nil pystr) (all_metadata := @nil meta_dict) as [r Hr].
    { intros f text Hin. apply fuel_for_bound. by apply supported_files_sublist. }
    rewrite Hr.
    repeat case_match; eauto. }
  exists outcome. intros fuel Hfuel.
  replace fuel with (fuel_for sources_dir + (fuel - fuel_for sources_dir))%nat by lia.
  by apply process_documents_more_fuel.
Qed.

(** Whatever a run does, it leaves every file other than the index and
    the metadata as it was. *)
Lemma process_documents_frame fuel self sources_dir index_dir r index_dir' :
  process_documents fuel self sources_dir index_dir = Some (r, index_dir') →
  same_outside_index index_dir index_dir'.
Proof.
  unfold process_documents. intros Hrun.
  destruct (load_index_returns index_dir) as [[existing_index existing_metadata] Hl].
  rewrite Hl in Hrun.
  repeat case_match; simplify_eq; try apply same_outside_index_refl.
  all: match goal with
       | H : save_index ?i ?m ?dir = _ |- _ =>
           destruct (save_index_frame i m dir) as (dir2 & Hs & Hf); rewrite Hs in H
       end.
  all: by simplify_eq.
Qed.

(** When there is nothing to embed, or the embedding is empty, the run
    returns normally and the index directory is as it was. *)
Lemma process_documents_nothing_saved fuel self sources_dir index_dir all_chunks all_metadata :
  process_files fuel self (supported_files sources_dir) [] [] = Some (Ok (all_chunks, all_metadata)) →
  (all_chunks = [] ∨ ∃ embeddings, create_embeddings all_chunks = Ok embeddings ∧ size embeddings = 0) →
  process_documents fuel self sources_dir index_dir = Some (Ok (), index_dir).
Proof.
  intros Hfiles Hempty. unfold process_documents.
  destruct (negb (Py.truthy _)); [done|].
  destruct (load_index_returns index_dir) as [[existing_index existing_metadata] ->].
  rewrite Hfiles.
  destruct Hempty as [->|(embeddings & -> & ->)]; [done|].
  by destruct (negb (Py.truthy all_chunks)).
Qed.





(** C1, amended: under the configuration of [__init__] every run of
    [process_documents] returns. When the embedding of the gathered
    chunks is empty the run returns normally, without an error, and
    leaves the index directory as it was; so does a run that finds no
    supported file or gathers no chunk. Extraction never raises: a file
    of an unsupported format or whose parser fails yields no text, and a
    file without text is skipped. *)
Theorem process_documents_degrades (sources_dir : list source_file) (index_dir : directory) :
  ∃ outcome,
    (∀ fuel, (fuel_for sources_dir ≤ fuel)%nat →
             process_documents fuel init sources_dir index_dir = Some outcome)
    ∧ (∀ all_chunks all_metadata embeddings,
         process_files (fuel_for sources_dir) init (supported_files sources_dir) [] []
         = Some (Ok (all_chunks, all_metadata)) →
         create_embeddings all_chunks = Ok embeddings → size embeddings = 0 →
         outcome = (Ok (), index_dir))
    ∧ (∀ all_metadata,
         process_files (fuel_for sources_dir) init (supported_files sources_dir) [] []
         = Some (Ok ([], all_metadata)) →
         outcome = (Ok (), index_dir))
    ∧ (supported_files sources_dir = [] → outcome = (Ok (), index_dir))
    ∧ (∀ file_path, ∃ text, extract_text file_path = Ok text)
    ∧ (∀ file_path, lower (suffix (name file_path)) ∉ supported_extensions →
                    extract_text file_path = Ok [])
    ∧ (∀ file_path e, read_utf8 (content file_path) = Raise e →
                      extract_text_from_txt file_path = Ok [])
    ∧ (∀ fuel self file_path rest all_chunks all_metadata,
         extract_text file_path = Ok [] →
         process_files fuel self (file_path :: rest) all_chunks all_metadata
         = process_files fuel self rest all_chunks all_metadata).
Proof.
  destruct (process_documents_returns sources_dir index_dir) as [outcome Hrun].
  exists outcome. split; [done|].
  specialize (Hrun (fuel_for sources_dir) ltac:(lia)).
  repeat split.
  - intros all_chunks all_metadata embeddings Hfiles Hemb Hsize.
    pose proof (process_documents_nothing_saved _ _ _ index_dir _ _ Hfiles) as Hsaved.
    rewrite Hsaved in Hrun by eauto. by simplify_eq.
  - intros all_metadata Hfiles.
    pose proof (process_documents_nothing_saved _ _ _ index_dir _ _ Hfiles) as Hsaved.
    rewrite Hsaved in Hrun by eauto. by simplify_eq.
  - intros Hnone. unfold process_documents in Hrun. rewrite Hnone in Hrun. simpl in Hrun. by simplify_eq.
  - apply extract_text_returns.
  - apply extract_text_unsupported.
  - intros file_path e. apply extract_text_failure.
  - intros. by apply process_files_skip.
Qed.

(** C3: under the configuration of [__init__] a run of
    [process_documents] returns and leaves every file of the index
    directory other than the index and the metadata as it was, the
    chunk-text file in particular: when that file was absent before the
    run, [load_chunks] finds no chunk after it. [save_index] itself
    returns normally and changes at most the index file and the metadata
    file; when neither is locked it stores exactly the index and the
    metadata list. *)
Theorem ingestion_never_writes_chunks (sources_dir : list source_file) (index_dir : directory) :
  (∃ r index_dir',
      (∀ fuel, (fuel_for sources_dir ≤ fuel)%nat →
               process_documents fuel init sources_dir index_dir = Some (r, index_dir'))
      ∧ same_outside_index index_dir index_dir'
      ∧ files index_dir' !! "chunks.pkl"%string = files index_dir !! "chunks.pkl"%string
      ∧ (files index_dir !! "chunks.pkl"%string = None →
         RAGProcessor.load_chunks index_dir' = (Ok [], index_dir')))
  ∧ (∀ index metadata,
       ∃ index_dir',
         save_index index metadata index_dir = (Ok (), index_dir')
         ∧ same_outside_index index_dir index_dir'
         ∧ (locked index_dir = ∅ →
            files index_dir'
            = <["metadata.pkl"%string := PickledMetadata metadata]>
                (<["faiss_index.bin"%string := FaissBinary index]> (files index_dir)))).
Proof.
  split.
  - destruct (process_documents_returns sources_dir index_dir) as [[r index_dir'] Hrun].
    exists r, index_dir'. split; [done|].
    specialize (Hrun (fuel_for sources_dir) ltac:(lia)).
    apply process_documents_frame in Hrun as Hframe.
    assert (files index_dir' !! "chunks.pkl"%string = files index_dir !! "chunks.pkl"%string)
      as Hchunks by by apply Hframe.
    repeat split; try done; try apply Hframe.
    intros Hnone. apply load_chunks_absent. by rewrite Hchunks.
  - intros index metadata.
    destruct (save_index_frame index metadata index_dir) as (index_dir' & Hsave & Hframe).
    exists index_dir'. repeat split; try done; try apply Hframe.
    intros Hfree. rewrite save_index_writes in Hsave by done. by simplify_eq.
Qed.

End IngestionFacts.

Lemma process_documents_degrades_witness :
  ∃ outcome,
    DocumentIngester.process_documents (P:=Demo.text_files) (U:=Demo.ascii_only)
      (E:=Demo.failing_model) 12 DocumentIngester.init Demo.sources Demo.empty_dir
    = Some outcome
    ∧ outcome = (Ok (), Demo.empty_dir).
Proof.
  destruct (process_documents_degrades (P:=Demo.text_files) (U:=Demo.ascii_only)
              (E:=Demo.failing_model) Demo.sources Demo.empty_dir)
    as (outcome & Hrun & Hembedding & _).
  exists outcome. split.
  - apply Hrun. vm_compute. lia.
  - eapply Hembedding; reflexivity.
Defined.

(** C1, the claim as stated fails: the single chunk of [Demo.sources]
    reaches the embedding step, the embedding model fails, the embedding
    is empty, and [process_documents] returns normally: no error reaches
    the caller. *)
Lemma embedding_failure_not_surfaced :
  DocumentIngester.process_files (P:=Demo.text_files) (U:=Demo.ascii_only) 12
    DocumentIngester.init (DocumentIngester.supported_files Demo.sources) [] []
  = Some (Ok ([py "hello world"], [Demo.hello_metadata]))
  ∧ DocumentIngester.create_embeddings (E:=Demo.failing_model) [py "hello world"] = Ok []
  ∧ DocumentIngester.process_documents (P:=Demo.text_files) (U:=Demo.ascii_only)
      (E:=Demo.failing_model) 12 DocumentIngester.init Demo.sources Demo.empty_dir
    = Some (Ok (), Demo.empty_dir)
  ∧ ¬ raised (Ok () : result unit).
Proof.
  repeat split; try reflexivity.
  intros [e He]. discriminate.
Qed.

Lemma ingestion_never_writes_chunks_witness :
  ∃ r index_dir',
    DocumentIngester.process_documents (P:=Demo.text_files) (U:=Demo.ascii_only)
      (E:=Demo.constant_model) 12 DocumentIngester.init Demo.sources Demo.empty_dir
    = Some (r, index_dir')
    ∧ RAGProcessor.load_chunks index_dir' = (Ok [], index_dir').
Proof.
  destruct (ingestion_never_writes_chunks (P:=Demo.text_files) (U:=Demo.ascii_only)
              (E:=Demo.constant_model) Demo.sources Demo.empty_dir)
    as [(r & index_dir' & Hrun & _ & _ & Hchunks) _].
  exists r, index_dir'. split.
  - apply Hrun. vm_compute. lia.
  - apply Hchunks. reflexivity.
Defined.

(** C2: the ingestion of one text file into an empty index directory
    returns normally and leaves an index of one vector and a metadata
    list of one entry, but no chunk-text file: the chunk-text store read
    by [load_chunks] has no entry. *)
Theorem ingestion_leaves_no_chunk_texts :
  DocumentIngester.process_documents (P:=Demo.text_files) (U:=Demo.ascii_only)
    (E:=Demo.constant_model) 12 DocumentIngester.init Demo.sources Demo.empty_dir
  = Some (Ok (), Demo.ingested_dir)
  ∧ RAGProcessor.load_index Demo.ingested_dir
    = (Ok (Some (@Build_faiss_index Demo.integers 384 [replicate 384 0]),
           [Demo.hello_metadata]), Demo.ingested_dir)
  ∧ Faiss.ntotal (@Build_faiss_index Demo.integers 384 [replicate 384 0]) = 1
  ∧ Py.len [Demo.hello_metadata] = 1
  ∧ files Demo.ingested_dir !! "chunks.pkl"%string = None
  ∧ RAGProcessor.load_chunks Demo.ingested_dir = (Ok [], Demo.ingested_dir).
Proof.
  repeat split; vm_compute; reflexivity.
Qed.

(** * Retrieval *)

Section RetrievalFacts.
Context {Nm : Numeric} {E : Embedder} {V : VectorSearch}.
Import RAGProcessor.

Lemma collect_length metadata chunks results :
  ∀ relevant_chunks r,
    collect metadata chunks results relevant_chunks = Ok r →
    (length r ≤ length relevant_chunks + length results)%nat.
Proof.
  induction results as [|[score idx] rest IH]; intros acc r Hr; simpl in Hr.
  { simplify_eq. lia. }
  destruct (_ && _).
  - destruct (getitem chunks idx) as [chunk|]; [|done].
    destruct (getitem metadata idx) as [entry|]; [|done].
    simpl in Hr. apply IH in Hr. rewrite length_app in Hr. simpl in *. lia.
  - apply IH in Hr. simpl. lia.
Qed.

(** For positions that are not negative, the loop keeps exactly the
    results whose position lies in both lists, each with the text and
    the metadata of that position, in the order of the search. *)
Lemma collect_nonnegative metadata chunks results :
  Forall (fun r : scalar * Z => 0 <= r.2) results →
  ∀ relevant_chunks,
    collect metadata chunks results relevant_chunks
    = Ok (relevant_chunks ++ omap (entry_at metadata chunks) results).
Proof.
  induction 1 as [|[score idx] rest Hidx _ IH]; intros acc; simpl in *.
  { by rewrite app_nil_r. }
  unfold entry_at at 1. simpl.
  destruct (Z.ltb_spec idx (Py.len chunks)) as [Hc|Hc]; simpl.
  - destruct (Z.ltb_spec idx (Py.len metadata)) as [Hm|Hm].
    + unfold getitem, Py.index.
      destruct (Z.leb_spec 0 idx); [|lia].
      destruct (lookup_lt_is_Some_2 chunks (Z.to_nat idx)) as [chunk ->];
        [unfold Py.len in Hc; lia|].
      destruct (lookup_lt_is_Some_2 metadata (Z.to_nat idx)) as [entry ->];
        [unfold Py.len in Hm; lia|].
      simpl. rewrite IH. by rewrite <- app_assoc.
    + rewrite (lookup_ge_None_2 metadata (Z.to_nat idx)) by (unfold Py.len in Hm; lia).
      rewrite IH. by destruct (chunks !! Z.to_nat idx).
  - rewrite (lookup_ge_None_2 chunks (Z.to_nat idx)) by (unfold Py.len in Hc; lia).
    by rewrite IH.
Qed.

Lemma insert_desc_length x l : length (insert_desc x l) = S (length l).
Proof.
  induction l as [|y l IH]; simpl; [done|].
  destruct (scalar_leb _ _); simpl; by rewrite ?IH.
Qed.

Lemma sort_by_score_desc_length l : length (sort_by_score_desc l) = length l.
Proof.
  induction l as [|x l IH]; simpl; [done|].
  by rewrite insert_desc_length, IH.
Qed.

Lemma insert_desc_Permutation x l : insert_desc x l ≡ₚ x :: l.
Proof.
  induction l as [|y l IH]; simpl; [done|].
  destruct (scalar_leb _ _); [done|].
  rewrite IH. apply Permutation_swap.
Qed.

(** Sorting keeps the entries. *)
Lemma sort_by_score_desc_Permutation l : sort_by_score_desc l ≡ₚ l.
Proof.
  induction l as [|x l IH]; simpl; [done|].
  by rewrite insert_desc_Permutation, IH.
Qed.

Section TotalOrder.
Hypothesis leb_total : ∀ a b : scalar, scalar_leb a b = true ∨ scalar_leb b a = true.

Lemma insert_desc_HdRel x y l :
  score_ge y x → HdRel score_ge y l → HdRel score_ge y (insert_desc x l).
Proof.
  intros Hyx Hyl. destruct l as [|z l]; simpl; [by constructor|].
  destruct (scalar_leb _ _); constructor; [done|].
  by inversion Hyl.
Qed.

Lemma insert_desc_Sorted x l :
  Sorted score_ge l → Sorted score_ge (insert_desc x l).
Proof.
  induction 1 as [|y l Hs IH Hhd]; simpl; [by repeat constructor|].
  destruct (scalar_leb (score y) (score x)) eqn:Hle.
  - constructor; [by constructor|]. by constructor.
  - constructor; [done|].
    apply insert_desc_HdRel; [|done].
    unfold score_ge. destruct (leb_total (score x) (score y)); congruence.
Qed.

Lemma sort_by_score_desc_Sorted l : Sorted score_ge (sort_by_score_desc l).
Proof.
  induction l as [|x l IH]; simpl; [constructor|].
  by apply insert_desc_Sorted.
Qed.

End TotalOrder.

Lemma create_query_embedding_returns query :
  ∃ embedding, create_query_embedding query = Ok embedding.
Proof. unfold create_query_embedding. destruct (encode [query]); simpl; eauto. Qed.

Lemma retrieve_relevant_chunks_returns self query index metadata chunks :
  ∃ relevant_chunks,
    retrieve_relevant_chunks self query index metadata chunks = Ok relevant_chunks.
Proof.
  unfold retrieve_relevant_chunks, catch.
  destruct (_ ≫= _); eauto.
Qed.

(** A failure of the embedding model or of the search yields the empty
    evidence list. *)
Lemma retrieve_relevant_chunks_failure self query index metadata chunks e :
  (encode [query] = Raise e
   ∨ ∃ embedding, encode [query] = Ok embedding
                  ∧ search index embedding (Z.min (top_k self) (Faiss.ntotal index)) = Raise e) →
  retrieve_relevant_chunks self query index metadata chunks = Ok [].
Proof.
  unfold retrieve_relevant_chunks, create_query_embedding.
  intros [-> | (embedding & -> & Hs)]; simpl; [done|].
  destruct (size embedding =? 0); [done|]. by rewrite Hs.
Qed.

(** C5: when scores are totally ordered and the search gives [k] scores
    and [k] labels, [retrieve_relevant_chunks] returns a list of at most
    [min(top_k, ntotal)] entries, sorted by non-increasing score. *)
Theorem retrieve_top_k_sorted
    (leb_total : ∀ a b : scalar, scalar_leb a b = true ∨ scalar_leb b a = true)
    (search_shape : ∀ index x k scores indices,
        search index x k = Ok (scores, indices) →
        Py.len scores = k ∧ Py.len indices = k)
    self query index metadata chunks :
  0 <= top_k self →
  ∃ relevant_chunks,
    retrieve_relevant_chunks self query index metadata chunks = Ok relevant_chunks
    ∧ Py.len relevant_chunks <= Z.min (top_k self) (Faiss.ntotal index)
    ∧ Sorted score_ge relevant_chunks.
Proof.
  intros Htop.
  assert (0 <= Z.min (top_k self) (Faiss.ntotal index)) as Hmin.
  { unfold Faiss.ntotal, Py.len. lia. }
  unfold retrieve_relevant_chunks.
  destruct (create_query_embedding_returns query) as [qe ->]. simpl.
  destruct (size qe =? 0).
  { eexists. split; [done|]. split; [done | constructor]. }
  destruct (search index qe _) as [[scores indices]|e] eqn:Hs; simpl;
    [|eexists; split; [done|]; split; [done | constructor]].
  apply search_shape in Hs as [Hscores Hindices].
  destruct (collect metadata chunks (zip scores indices) []) as [relevant|e] eqn:Hc; simpl;
    [|eexists; split; [done|]; split; [done | constructor]].
  eexists. split; [done|]. split; [|by apply sort_by_score_desc_Sorted].
  apply collect_length in Hc. simpl in Hc.
  unfold Py.len in *. rewrite sort_by_score_desc_length.
  rewrite length_zip in Hc. lia.
Qed.

End RetrievalFacts.

Lemma integer_scores_total (a b : Z) : (a <=? b) = true ∨ (b <=? a) = true.
Proof. destruct (Z.leb_spec a b); [by left | right; apply Z.leb_le; lia]. Qed.

Lemma first_k_search_shape index x k scores indices :
  search (VectorSearch:=Demo.first_k_search) index x k = Ok (scores, indices) →
  Py.len scores = k ∧ Py.len indices = k.
Proof.
  simpl. destruct (Z.leb_spec k 0); [done|].
  intros [= <- <-]. unfold Py.len.
  rewrite length_replicate, length_map, length_seq. lia.
Qed.

Lemma retrieve_top_k_sorted_witness :
  ∃ relevant_chunks,
    RAGProcessor.retrieve_relevant_chunks (E:=Demo.constant_model) (V:=Demo.first_k_search)
      Demo.processor (py "q") Demo.three_vectors
      [Demo.meta 0; Demo.meta 1; Demo.meta 2] [py "a"; py "b"; py "c"]
    = Ok relevant_chunks
    ∧ Py.len relevant_chunks
      <= Z.min (RAGProcessor.top_k Demo.processor) (Faiss.ntotal Demo.three_vectors)
    ∧ Sorted score_ge relevant_chunks.
Proof.
  apply (retrieve_top_k_sorted (Nm:=Demo.integers) (V:=Demo.first_k_search)
           integer_scores_total first_k_search_shape).
  vm_compute. discriminate.
Defined.

(** C8: the search result [(0, -1)] carries no valid position, yet the
    loop emits an entry for it, with the last chunk text and the last
    metadata entry; when the metadata list is shorter than the chunk
    list these two come from different positions. *)
Theorem retrieve_keeps_negative_position :
  RAGProcessor.retrieve_relevant_chunks (E:=Demo.constant_model) (V:=Demo.sentinel_search)
    Demo.processor (py "q") Demo.three_vectors
    [Demo.meta 0; Demo.meta 1; Demo.meta 2] [py "a"; py "b"; py "c"]
  = Ok [Demo.evidence_of (py "b") (Demo.meta 1) 9;
        Demo.evidence_of (py "a") (Demo.meta 0) 7;
        Demo.evidence_of (py "c") (Demo.meta 2) 0]
  ∧ RAGProcessor.retrieve_relevant_chunks (E:=Demo.constant_model) (V:=Demo.sentinel_search)
      Demo.processor (py "q") Demo.three_vectors
      [Demo.meta 0; Demo.meta 1] [py "a"; py "b"; py "c"]
    = Ok [Demo.evidence_of (py "b") (Demo.meta 1) 9;
          Demo.evidence_of (py "a") (Demo.meta 0) 7;
          Demo.evidence_of (py "c") (Demo.meta 1) 0].
Proof. split; reflexivity. Qed.

(** * Answering a query *)

Section QueryFacts.
Context {Nm : Numeric} {E : Embedder} {V : VectorSearch} {C : ChatModel}.
Import RAGProcessor.

Lemma generate_response_returns self query context_chunks :
  ∃ response, generate_response self query context_chunks = Ok response.
Proof.
  unfold generate_response, catch.
  destruct (openai_client self); simpl; [|eauto].
  destruct (chat_completions_create _ _ _); simpl; eauto.
Qed.

(** A failure of the chat endpoint becomes an apology. *)
Lemma generate_response_failure self query context_chunks key e :
  openai_client self = Some key →
  (∀ user_prompt, chat_completions_create (openai_model self) system_prompt user_prompt = Raise e) →
  generate_response self query context_chunks
  = Ok (py "I apologize, but I encountered an error while generating a response: " ++ str_exn e).
Proof.
  intros Hkey Hfail. unfold generate_response. rewrite Hkey. simpl. by rewrite Hfail.
Qed.

(** C4: [process_query] returns a string for every query and every
    index directory, and leaves the directory as it was. Without the
    index file or the metadata file the string is the "no knowledge
    base" message; with an index but without chunk texts (file missing,
    unreadable or empty) it is the "no text chunks" message; with an
    empty retrieval it is the "no relevant information" message;
    otherwise it is the string of [generate_response], which is an
    apology naming the error when the chat endpoint fails. *)
Theorem process_query_returns_string self query (dir : directory) :
  ∃ answer,
    process_query self query dir = (Ok answer, dir)
    ∧ ((files dir !! "faiss_index.bin"%string = None ∨ files dir !! "metadata.pkl"%string = None) →
       answer = no_knowledge_base)
    ∧ (∀ metadata, load_index dir = (Ok (None, metadata), dir) → answer = no_knowledge_base)
    ∧ (∀ index metadata,
         load_index dir = (Ok (Some index, metadata), dir) →
         (files dir !! "chunks.pkl"%string = None → answer = no_text_chunks)
         ∧ (load_chunks dir = (Ok [], dir) → answer = no_text_chunks)
         ∧ (∀ chunks,
              load_chunks dir = (Ok chunks, dir) → chunks ≠ [] →
              (retrieve_relevant_chunks self query index metadata chunks = Ok [] →
               answer = no_relevant_information)
              ∧ (∀ relevant_chunks,
                   retrieve_relevant_chunks self query index metadata chunks = Ok relevant_chunks →
                   relevant_chunks ≠ [] →
                   generate_response self query relevant_chunks = Ok answer
                   ∧ (∀ key e,
                        openai_client self = Some key →
                        (∀ user_prompt,
                           chat_completions_create (openai_model self) system_prompt user_prompt
                           = Raise e) →
                        answer
                        = py "I apologize, but I encountered an error while generating a response: "
                          ++ str_exn e)))).
Proof.
  assert (∀ index metadata chunks relevant_chunks answer,
            load_index dir = (Ok (index, metadata), dir) →
            load_chunks dir = (Ok chunks, dir) →
            (∀ i, index = Some i →
                  retrieve_relevant_chunks self query i metadata chunks = Ok relevant_chunks) →
            answer = match index with
                     | None => no_knowledge_base
                     | Some _ =>
                         match chunks with
                         | [] => no_text_chunks
                         | _ :: _ =>
                             match relevant_chunks with
                             | [] => no_relevant_information
                             | _ :: _ =>
                                 match generate_response self query relevant_chunks with
                                 | Ok response => response
                                 | Raise e => error_while_processing e
                                 end
                             end
                         end
                     end →
            process_query self query dir = (Ok answer, dir)) as Hrun.
  { intros index metadata chunks relevant answer Hl Hc Hr ->.
    unfold process_query, io_catch, mbind, io_bind, mret, io_ret, io_lift.
    rewrite Hl. destruct index as [index|]; [|done].
    rewrite Hc. destruct chunks as [|chunk chunks]; [done|]. simpl.
    rewrite (Hr index eq_refl).
    destruct relevant as [|entry relevant]; [done|]. simpl.
    by destruct (generate_response_returns self query (entry :: relevant)) as [response ->]. }
  destruct (load_index_returns dir) as [[index metadata] Hl].
  destruct (load_chunks_returns (Nm:=Nm) dir) as [chunks Hc].
  change (DocumentIngester.load_index dir) with (load_index dir) in Hl.
  destruct index as [index|].
  - destruct (retrieve_relevant_chunks_returns self query index metadata chunks)
      as [relevant Hr].
    eexists. split.
    { eapply (Hrun (Some index) metadata chunks relevant); try done.
      by intros i [= <-]. }
    split; [|split].
    + intros Hmiss. apply load_index_missing in Hmiss.
      change (DocumentIngester.load_index dir) with (load_index dir) in Hmiss. congruence.
    + intros metadata' Hl'. congruence.
    + intros index' metadata' Hl'. assert (index' = index ∧ metadata' = metadata) as [-> ->]
        by (split; congruence).
      split; [|split].
      * intros Hnone. apply load_chunks_absent in Hnone.
        assert (chunks = []) as -> by congruence. done.
      * intros Hc'. assert (chunks = []) as -> by congruence. done.
      * intros chunks' Hc' Hne. assert (chunks' = chunks) as -> by congruence.
        destruct chunks as [|chunk chunks]; [done|].
        split.
        -- intros Hr'. assert (relevant = []) as -> by congruence. done.
        -- intros relevant' Hr' Hne'. assert (relevant' = relevant) as -> by congruence.
           destruct relevant as [|entry relevant]; [done|].
           destruct (generate_response_returns self query (entry :: relevant))
             as [response Hg].
           rewrite Hg. split; [done|].
           intros key e Hkey Hfail.
           rewrite (generate_response_failure _ _ _ key e) in Hg by done. congruence.
  - exists no_knowledge_base. split.
    { eapply (Hrun None metadata chunks []); try done. }
    split; [done|]. split; [done|].
    intros index' metadata' Hl'. congruence.
Qed.

End QueryFacts.

Lemma process_query_returns_string_witness :
  RAGProcessor.process_query (E:=Demo.constant_model) (V:=Demo.first_k_search)
    (C:=Demo.failing_chat) Demo.processor (py "q") Demo.empty_dir
  = (Ok RAGProcessor.no_knowledge_base, Demo.empty_dir).
Proof.
  destruct (process_query_returns_string (E:=Demo.constant_model) (V:=Demo.first_k_search)
              (C:=Demo.failing_chat) Demo.processor (py "q") Demo.empty_dir)
    as (answer & Hrun & Hmiss & _).
  rewrite Hrun. rewrite (Hmiss (or_introl eq_refl)). reflexivity.
Defined.

(** * Further properties of the string operations *)

Section TrimFacts.

Lemma lstrip_head s c rest : Py.lstrip s = c :: rest → Py.isspace c = false.
Proof.
  induction s as [|x t IH]; simpl; [done|].
  destruct (Py.isspace x) eqn:Ex; [done|]. by intros [= <- <-].
Qed.

Lemma rstrip_last s : ∀ c front, Py.rstrip s = front ++ [c] → Py.isspace c = false.
Proof.
  induction s as [|x t IH]; simpl; intros c front Hs.
  { by destruct front. }
  destruct (Py.rstrip t) as [|r0 r] eqn:Er.
  - destruct (Py.isspace x) eqn:Ex; [by destruct front|].
    destruct front as [|f0 front]; simpl in Hs; [by simplify_eq|].
    simplify_eq. by destruct front.
  - destruct front as [|f0 front]; simpl in Hs; [by simplify_eq|].
    simplify_eq. by eapply IH.
Qed.

Lemma strip_trimmed s : trimmed (Py.strip s).
Proof.
  split.
  - intros c rest. unfold Py.strip. rewrite <- lstrip_rstrip. apply lstrip_head.
  - intros c front. unfold Py.strip. apply rstrip_last.
Qed.

Lemma lstrip_id s : (∀ c rest, s = c :: rest → Py.isspace c = false) → Py.lstrip s = s.
Proof.
  destruct s as [|c rest]; simpl; [done|].
  intros Hhead. by rewrite (Hhead c rest eq_refl).
Qed.

Lemma rstrip_id s : (∀ c front, s = front ++ [c] → Py.isspace c = false) → Py.rstrip s = s.
Proof.
  induction s as [|x t IH]; simpl; intros Hlast; [done|].
  destruct t as [|y t'].
  - simpl. by rewrite (Hlast x [] eq_refl).
  - rewrite IH.
    + done.
    + intros c front Hc. apply (Hlast c (x :: front)). by rewrite Hc.
Qed.

Lemma strip_id s : trimmed s → Py.strip s = s.
Proof.
  intros [Hhead Hlast]. unfold Py.strip.
  by rewrite (lstrip_id s Hhead), (rstrip_id s Hlast).
Qed.

Lemma lstrip_suffix s : ∃ before, s = before ++ Py.lstrip s.
Proof.
  induction s as [|x t [before IH]]; simpl; [by exists []|].
  destruct (Py.isspace x); [|by exists []].
  exists (x :: before). simpl. by rewrite <- IH.
Qed.

Lemma rstrip_prefix s : ∃ after, s = Py.rstrip s ++ after.
Proof.
  induction s as [|x t [after IH]]; simpl; [by exists []|].
  destruct (Py.rstrip t) as [|r0 r] eqn:Er.
  - destruct (Py.isspace x).
    + by exists (x :: t).
    + exists t. done.
  - exists after. simpl in *. by rewrite <- IH.
Qed.

Lemma strip_piece s : piece_of s (Py.strip s).
Proof.
  unfold Py.strip, piece_of.
  destruct (lstrip_suffix s) as [before Hb].
  destruct (rstrip_prefix (Py.lstrip s)) as [after Ha].
  exists before, after. by rewrite <- Ha.
Qed.

Lemma strip_length s : (length (Py.strip s) ≤ length s)%nat.
Proof.
  destruct (strip_piece s) as (before & after & Hs).
  rewrite Hs at 2. rewrite !length_app. lia.
Qed.

Lemma slice_piece {A} (s : list A) start stop : ∃ before after, s = before ++ Py.slice s start stop ++ after.
Proof.
  unfold Py.slice.
  set (a := Z.to_nat (Py.adjust start (Py.len s))).
  set (n := Z.to_nat (Py.adjust stop (Py.len s) - Py.adjust start (Py.len s))).
  exists (take a s), (drop n (drop a s)).
  by rewrite take_drop, take_drop.
Qed.

Lemma slice_length {A} (s : list A) start stop :
  0 <= start → 0 <= stop →
  Py.len (Py.slice s start stop) <= Z.max 0 (stop - start).
Proof.
  intros Hstart Hstop. unfold Py.slice, Py.adjust, Py.len.
  destruct (Z.ltb_spec start 0); [lia|].
  destruct (Z.ltb_spec stop 0); [lia|].
  rewrite length_take, length_drop. lia.
Qed.

Lemma piece_of_trans (a b c : pystr) : piece_of a b → piece_of b c → piece_of a c.
Proof.
  intros (b1 & b2 & ->) (c1 & c2 & ->).
  exists (b1 ++ c1), (c2 ++ b2). by rewrite <- !app_assoc.
Qed.

End TrimFacts.

(** * Further properties of the cleaner *)

Section CleanerOutput.
Context {U : UnicodeData}.
Import DocumentIngester.

Lemma whitespace_run_cons c s :
  whitespace_run (c :: s) = true →
  whitespace_run s = true ∨ (Py.isspace c = true ∧ ∃ c2 rest, s = c2 :: rest ∧ Py.isspace c2 = true).
Proof.
  destruct s as [|c2 rest]; simpl; [done|].
  intros [H|H]%orb_true_iff; [|by left].
  apply andb_true_iff in H as [H1 H2]. right. eauto.
Qed.

Lemma whitespace_run_tail c s : whitespace_run s = true → whitespace_run (c :: s) = true.
Proof.
  destruct s as [|c2 rest]; simpl; [done|].
  intros ->. apply orb_true_r.
Qed.

Lemma whitespace_run_lstrip s : whitespace_run (Py.lstrip s) = true → whitespace_run s = true.
Proof.
  induction s as [|c t IH]; [done|].
  cbn [Py.lstrip]. destruct (Py.isspace c); [|done].
  intros H. apply IH in H. revert H. apply (whitespace_run_tail c t).
Qed.

Lemma whitespace_run_rstrip s : whitespace_run (Py.rstrip s) = true → whitespace_run s = true.
Proof.
  induction s as [|c t IH]; [done|].
  change (Py.rstrip (c :: t))
    with (match Py.rstrip t with [] => if Py.isspace c then [] else [c] | r => c :: r end).
  destruct (Py.rstrip t) as [|r0 r] eqn:Er.
  - by destruct (Py.isspace c).
  - intros [H | (Hc & c2 & rest & Heq & Hc2)]%whitespace_run_cons.
    + apply IH in H. by apply whitespace_run_tail.
    + simplify_eq.
      destruct t as [|y t']; [done|].
      assert (y = c2) as ->.
      { simpl in Er. destruct (Py.rstrip t'); [by destruct (Py.isspace y); simplify_eq|].
        by simplify_eq. }
      simpl. by rewrite Hc, Hc2.
Qed.

Lemma whitespace_run_strip s : whitespace_run s = false → whitespace_run (Py.strip s) = false.
Proof.
  intros Hs. unfold Py.strip.
  destruct (whitespace_run (Py.rstrip (Py.lstrip s))) eqn:E; [|done].
  apply whitespace_run_rstrip, whitespace_run_lstrip in E. congruence.
Qed.

(** After the first substitution no two whitespace characters are
    neighbours, and a text scanned inside a run starts with none. *)
Lemma sub_whitespace_no_run text :
  ∀ in_run,
    whitespace_run (sub_whitespace in_run text) = false
    ∧ (in_run = true → ∀ c rest, sub_whitespace in_run text = c :: rest → Py.isspace c = false).
Proof.
  induction text as [|x t IH]; intros in_run; simpl; [done|].
  destruct (Py.isspace x) eqn:Ex.
  - destruct (IH true) as [Hrun Hhead]. destruct in_run; [done|].
    split; [|done].
    destruct (sub_whitespace true t) as [|c2 rest] eqn:Es; [done|].
    change (whitespace_run (32%N :: c2 :: rest))
      with ((Py.isspace 32%N && Py.isspace c2) || whitespace_run (c2 :: rest)).
    by rewrite Hrun, (Hhead eq_refl c2 rest eq_refl).
  - destruct (IH false) as [Hrun _]. split.
    + destruct (sub_whitespace false t) as [|c2 rest] eqn:Es; [done|].
      change (whitespace_run (x :: c2 :: rest))
        with ((Py.isspace x && Py.isspace c2) || whitespace_run (c2 :: rest)).
      by rewrite Ex, Hrun.
    + intros _ c rest [= <- _]. done.
Qed.

Lemma sub_whitespace_allowed in_run text :
  Forall (fun c => allowed c = true) text →
  Forall (fun c => allowed c = true) (sub_whitespace in_run text).
Proof.
  intros Hall. revert in_run.
  induction Hall as [|x t Hx _ IH]; intros in_run; simpl; [done|].
  destruct (Py.isspace x); [destruct in_run|]; try constructor; try done; apply IH.
Qed.

Lemma sub_special_id text :
  Forall (fun c => allowed c = true) text → sub_special text = text.
Proof.
  unfold sub_special, Py.str. induction 1 as [|x t Hx _ IH]; [done|].
  rewrite filter_cons.
  destruct (decide (Is_true (allowed x))) as [_|Hn]; [f_equal; exact IH|].
  destruct Hn. by apply Is_true_eq_left.
Qed.

(** When the text is free of runs and its only whitespace character is
    the space, the first substitution leaves it as it is. *)
Lemma sub_whitespace_id text :
  whitespace_run text = false →
  (∀ c, c ∈ text → Py.isspace c = true → c = 32%N) →
  sub_whitespace false text = text
  ∧ ((∀ c rest, text = c :: rest → Py.isspace c = false) → sub_whitespace true text = text).
Proof.
  induction text as [|x t IH]; intros Hrun Hsp; simpl; [done|].
  assert (whitespace_run t = false) as Hrun'.
  { destruct (whitespace_run t) eqn:E; [|done].
    by rewrite (whitespace_run_tail x t E) in Hrun. }
  destruct IH as [IH1 IH2]; [done | intros c Hc; apply Hsp; by right |].
  destruct (Py.isspace x) eqn:Ex.
  - split.
    + rewrite (Hsp x) by (done || by left). f_equal. apply IH2.
      intros c rest ->.
      destruct (Py.isspace c) eqn:Ec; [|done].
      simpl in Hrun. by rewrite Ex, Ec in Hrun.
    + intros Hhead. by rewrite (Hhead x t eq_refl) in Ex.
  - by rewrite IH1.
Qed.

Lemma clean_text_members text c :
  c ∈ clean_text text → allowed c = true ∧ (Py.isspace c = true → c = 32%N).
Proof.
  unfold clean_text, sub_special. intros Hc.
  apply strip_sublist, list_elem_of_filter in Hc as [Ha Hc].
  split; [by apply Is_true_eq_true|].
  by eapply sub_whitespace_only_space.
Qed.

(** X1: every character of the cleaned text is on the allow-list, its
    only whitespace character is the space, and it neither starts nor
    ends with whitespace. *)
Theorem clean_text_output (text : pystr) :
  (∀ c, c ∈ clean_text text → allowed c = true ∧ (Py.isspace c = true → c = 32%N))
  ∧ trimmed (clean_text text).
Proof.
  split; [apply clean_text_members|].
  unfold clean_text. apply strip_trimmed.
Qed.

Lemma clean_text_of_allowed text :
  Forall (fun c => allowed c = true) text →
  clean_text text = Py.strip (sub_whitespace false text)
  ∧ whitespace_run (clean_text text) = false.
Proof.
  intros Hall. unfold clean_text.
  rewrite sub_special_id by by apply sub_whitespace_allowed.
  split; [done|].
  apply whitespace_run_strip, sub_whitespace_no_run.
Qed.

(** X2: when every character of the input is on the allow-list, the
    cleaned text holds no two consecutive whitespace characters. *)
Theorem clean_text_no_run_of_allowed (text : pystr) :
  Forall (fun c => allowed c = true) text →
  whitespace_run (clean_text text) = false.
Proof. intros Hall. by apply clean_text_of_allowed. Qed.

(** X3: a second pass of [clean_text] removes the whitespace runs that
    the first pass may leave, and from then on cleaning changes
    nothing. *)
Theorem clean_text_twice (text : pystr) :
  whitespace_run (clean_text (clean_text text)) = false
  ∧ clean_text (clean_text (clean_text text)) = clean_text (clean_text text).
Proof.
  assert (∀ t, Forall (fun c => allowed c = true) (clean_text t)) as Hallowed.
  { intros t. apply Forall_forall. intros c Hc. by apply clean_text_members in Hc as [? _]. }
  destruct (clean_text_of_allowed (clean_text text) (Hallowed _)) as [_ Hrun].
  split; [done|].
  set (v := clean_text (clean_text text)) in *.
  assert (trimmed v) as Htrim by (unfold v, clean_text at 1; apply strip_trimmed).
  destruct (clean_text_of_allowed v (Hallowed _)) as [-> _].
  destruct (sub_whitespace_id v) as [-> _]; [done| |by apply strip_id].
  intros c Hc. by apply clean_text_members in Hc as [_ ?].
Qed.

End CleanerOutput.

Lemma clean_text_no_run_of_allowed_witness :
  whitespace_run (DocumentIngester.clean_text (U:=Demo.ascii_only) (py "a   b,  c")) = false.
Proof.
  apply (clean_text_no_run_of_allowed (U:=Demo.ascii_only)).
  repeat constructor.
Defined.

(** * Further properties of the chunker *)

Section ChunkerOutput.
Import DocumentIngester.

Lemma rfind_from_bound c s a n :
  Py.rfind_from c s a n = -1 ∨ a <= Py.rfind_from c s a n < a + Z.of_nat n.
Proof.
  induction n as [|n IH]; simpl; [by left|].
  destruct (decide _); [right; lia|].
  destruct IH as [->|IH]; [by left | right; lia].
Qed.

(** A position found by [rfind] holds the needle and lies inside the
    searched range. *)
Lemma rfind_from_found c s a n :
  0 <= a → Py.rfind_from c s a n ≠ -1 →
  s !! Z.to_nat (Py.rfind_from c s a n) = Some c.
Proof.
  intros Ha. induction n as [|n IH]; simpl; [done|].
  destruct (decide _) as [Hc|_]; [|done].
  intros _. by replace (Z.to_nat (a + Z.of_nat n)) with (Z.to_nat a + n)%nat by lia.
Qed.

Lemma rfind_below_stop c s start stop :
  0 <= stop → Py.rfind c s start stop < stop.
Proof.
  intros Hstop. unfold Py.rfind.
  destruct (rfind_from_bound c s (Py.adjust start (Py.len s))
              (Z.to_nat (Py.adjust stop (Py.len s) - Py.adjust start (Py.len s))))
    as [->|Hb]; [lia|].
  unfold Py.adjust in *. destruct (stop <? 0) eqn:E; lia.
Qed.

Lemma window_end_upper self text start :
  0 <= start + chunk_size self →
  window_end self text start <= start + chunk_size self.
Proof.
  intros Hnn. unfold window_end.
  destruct (_ <? Py.len text); [|lia].
  destruct (Z.gtb_spec (Py.rfind 46%N text start (start + chunk_size self))
              (start + chunk_size self - 100)); [|lia].
  pose proof (rfind_below_stop 46%N text start (start + chunk_size self) Hnn). lia.
Qed.

(** When the window end is moved, it is moved just behind a full stop
    of the text. *)
Lemma window_end_snapped self text start :
  0 <= start → 100 <= chunk_size self →
  window_end self text start = start + chunk_size self
  ∨ text !! Z.to_nat (window_end self text start - 1) = Some 46%N.
Proof.
  intros Hstart Hsize. unfold window_end.
  destruct (_ <? Py.len text); [|by left].
  destruct (Z.gtb_spec (Py.rfind 46%N text start (start + chunk_size self))
              (start + chunk_size self - 100)) as [Hgt|]; [|by left].
  right. replace (Py.rfind 46%N text start (start + chunk_size self) + 1 - 1)
    with (Py.rfind 46%N text start (start + chunk_size self)) by lia.
  unfold Py.rfind in *. apply rfind_from_found; [|lia].
  unfold Py.adjust, Py.len. destruct (start <? 0); lia.
Qed.

Lemma chunk_loop_invariant (Q : pystr → Prop) self text :
  chunk_overlap self + 100 <= chunk_size self →
  (∀ start, 0 <= start →
            Q (Py.strip (Py.slice text start (window_end self text start)))) →
  ∀ fuel start chunks r,
    0 <= start →
    chunk_loop fuel self text start chunks = Some r →
    Forall Q chunks → Forall Q r.
Proof.
  intros Hcfg HQ fuel.
  induction fuel as [|fuel IH]; intros start chunks r Hstart Hr Hall; [done|].
  simpl in Hr.
  destruct (start <? Py.len text); [|by simplify_eq].
  pose proof (window_end_progress self text start) as Hp.
  set (chunk := Py.strip (Py.slice text start (window_end self text start))) in *.
  assert (Forall Q (if Py.truthy chunk then chunks ++ [chunk] else chunks)) as Hall'.
  { destruct (Py.truthy chunk); [|done].
    apply Forall_app. split; [done|]. apply Forall_singleton. by apply HQ. }
  destruct (_ >=? Py.len text); [by simplify_eq|].
  eapply IH; [|done..]. lia.
Qed.

(** X4: under the configuration of [__init__] no chunk is longer than
    [chunk_size], and every chunk is a contiguous piece of the text. *)
Theorem chunk_text_pieces (text : pystr) :
  ∃ chunks,
    (∀ fuel, (length text < fuel)%nat → chunk_text fuel init text = Some chunks)
    ∧ Forall (fun chunk => Py.len chunk <= chunk_size init ∧ piece_of text chunk) chunks.
Proof.
  destruct (chunk_text_enough_fuel init text) as [chunks Hfuel]; [by vm_compute|].
  exists chunks. split; [done|].
  specialize (Hfuel (S (length text)) ltac:(lia)).
  unfold chunk_text in Hfuel.
  destruct (Z.leb_spec (Py.len text) (chunk_size init)).
  { simplify_eq. apply Forall_singleton. split; [done|]. exists [], []. by rewrite app_nil_r. }
  eapply (chunk_loop_invariant _ init text); [by vm_compute| |reflexivity|done|constructor].
  intros start Hstart. split.
  - pose proof (strip_length (Py.slice text start (window_end init text start))) as Hs.
    pose proof (window_end_progress init text start) as Hp.
    pose proof (window_end_upper init text start) as Hu.
    pose proof (slice_length text start (window_end init text start)) as Hl.
    change (chunk_size init) with 1000 in *.
    unfold Py.len in *. lia.
  - eapply piece_of_trans; [|apply strip_piece].
    apply slice_piece.
Qed.

Lemma chunk_text_pieces_witness :
  ∃ chunks, chunk_text 4 init (py "abc") = Some chunks
            ∧ Forall (fun chunk => Py.len chunk <= 1000 ∧ piece_of (py "abc") chunk) chunks.
Proof.
  destruct (chunk_text_pieces (py "abc")) as (chunks & Hfuel & Hall).
  exists chunks. split; [|exact Hall].
  apply Hfuel. simpl. lia.
Defined.

(** X5: under the configuration of [__init__] every chunk of a text
    longer than [chunk_size] is stored trimmed: it is not empty and
    neither starts nor ends with whitespace. *)
Theorem chunk_text_trimmed (text : pystr) :
  chunk_size init < Py.len text →
  ∃ chunks,
    (∀ fuel, (length text < fuel)%nat → chunk_text fuel init text = Some chunks)
    ∧ Forall (fun chunk => trimmed chunk ∧ chunk ≠ []) chunks.
Proof.
  intros Hlong.
  destruct (chunk_text_enough_fuel init text) as [chunks Hfuel]; [by vm_compute|].
  exists chunks. split; [done|].
  specialize (Hfuel (S (length text)) ltac:(lia)).
  unfold chunk_text in Hfuel.
  destruct (Z.leb_spec (Py.len text) (chunk_size init)); [lia|].
  clear Hlong.
  revert Hfuel. generalize (S (length text)) as fuel.
  assert (∀ fuel start acc r,
            chunk_loop fuel init text start acc = Some r →
            Forall (fun chunk => trimmed chunk ∧ chunk ≠ []) acc →
            Forall (fun chunk => trimmed chunk ∧ chunk ≠ []) r) as Hinv.
  { induction fuel as [|fuel IH]; intros start acc r Hr Hall; [done|].
    simpl in Hr.
    destruct (start <? Py.len text); [|by simplify_eq].
    set (chunk := Py.strip (Py.slice text start (window_end init text start))) in *.
    assert (Forall (fun chunk => trimmed chunk ∧ chunk ≠ [])
              (if Py.truthy chunk then acc ++ [chunk] else acc)) as Hall'.
    { destruct (Py.truthy chunk) eqn:E; [|done].
      apply Forall_app. split; [done|]. apply Forall_singleton.
      split; [apply strip_trimmed | by destruct chunk]. }
    destruct (_ >=? Py.len text); [by simplify_eq|].
    by eapply IH. }
  intros fuel Hr. eapply Hinv; [done | constructor].
Qed.

(** X6: under the configuration of [__init__] the end of the window
    that starts at [start] is either the hard cut [start + chunk_size]
    or lies in the last 100 characters of the window, just behind a
    full stop of the text. *)
Theorem window_end_sentence_boundary (text : pystr) (start : Z) :
  0 <= start →
  window_end init text start = start + chunk_size init
  ∨ (start + chunk_size init - 100 < window_end init text start - 1
     ∧ window_end init text start <= start + chunk_size init
     ∧ text !! Z.to_nat (window_end init text start - 1) = Some 46%N).
Proof.
  intros Hstart.
  destruct (window_end_snapped init text start) as [Hcut|Hdot]; [done|by vm_compute|by left|].
  destruct (decide (window_end init text start = start + chunk_size init)) as [|Hne];
    [by left|].
  right. split; [|split; [|done]].
  - unfold window_end in *.
    destruct (_ <? Py.len text); [|done].
    destruct (Z.gtb_spec (Py.rfind 46%N text start (start + chunk_size init))
                (start + chunk_size init - 100)); [lia|done].
  - apply window_end_upper. change (chunk_size init) with 1000. lia.
Qed.

End ChunkerOutput.

Lemma chunk_text_trimmed_witness :
  ∃ chunks,
    DocumentIngester.chunk_text 1301 DocumentIngester.init Demo.long_text = Some chunks
    ∧ Forall (fun chunk => trimmed chunk ∧ chunk ≠ []) chunks.
Proof.
  destruct (chunk_text_trimmed Demo.long_text) as (chunks & Hfuel & Hall).
  - by vm_compute.
  - exists chunks. split; [|exact Hall].
    apply Hfuel. vm_compute. lia.
Defined.

Lemma window_end_sentence_boundary_witness :
  DocumentIngester.window_end DocumentIngester.init Demo.long_text 0 = 1000
  ∨ (900 < DocumentIngester.window_end DocumentIngester.init Demo.long_text 0 - 1
     ∧ DocumentIngester.window_end DocumentIngester.init Demo.long_text 0 <= 1000
     ∧ Demo.long_text
         !! Z.to_nat (DocumentIngester.window_end DocumentIngester.init Demo.long_text 0 - 1)
       = Some 46%N).
Proof.
  apply (window_end_sentence_boundary Demo.long_text 0). lia.
Defined.

(** * Further properties of the persistence layer *)

Ltac io_steps :=
  unfold DocumentIngester.load_index, RAGProcessor.load_index, RAGProcessor.load_chunks,
    DocumentIngester.save_index, io_catch, mbind, io_bind, mret, io_ret,
    Fs.exists_, Fs.write, Fs.pickle_load_metadata, Fs.pickle_load_chunks,
    Faiss.read_index, Faiss.write_index, Fs.write;
  simpl.

Section PersistenceRoundTrip.
Context {Nm : Numeric}.

Lemma save_index_unlocked (index : faiss_index) (metadata : list meta_dict) (dir : directory) :
  "faiss_index.bin"%string ∉ locked dir → "metadata.pkl"%string ∉ locked dir →
  DocumentIngester.save_index index metadata dir
  = (Ok (), {| files := <["metadata.pkl"%string := PickledMetadata metadata]>
                          (<["faiss_index.bin"%string := FaissBinary index]> (files dir));
               locked := locked dir |}).
Proof.
  intros Hidx Hmd. io_steps.
  destruct (decide ("faiss_index.bin"%string ∈ locked dir)); [done|]. simpl.
  by destruct (decide ("metadata.pkl"%string ∈ locked dir)).
Qed.

Lemma load_saved (index : faiss_index) (metadata : list meta_dict) (dir dir' : directory) :
  "faiss_index.bin"%string ∉ locked dir → "metadata.pkl"%string ∉ locked dir →
  DocumentIngester.save_index index metadata dir = (Ok (), dir') →
  DocumentIngester.load_index dir' = (Ok (Some index, metadata), dir').
Proof.
  intros Hidx Hmd Hsave. rewrite save_index_unlocked in Hsave by done. simplify_eq.
  apply load_index_present; simpl.
  - rewrite lookup_insert_ne by done. by rewrite lookup_insert_eq.
  - by rewrite lookup_insert_eq.
Qed.

(** X7: when neither file is locked, what [save_index] stores is what
    both [load_index] functions read back, whatever the directory held
    before. *)
Theorem save_index_load_index (index : faiss_index) (metadata : list meta_dict)
    (dir : directory) :
  "faiss_index.bin"%string ∉ locked dir → "metadata.pkl"%string ∉ locked dir →
  ∃ dir',
    DocumentIngester.save_index index metadata dir = (Ok (), dir')
    ∧ DocumentIngester.load_index dir' = (Ok (Some index, metadata), dir')
    ∧ RAGProcessor.load_index dir' = (Ok (Some index, metadata), dir').
Proof.
  intros Hidx Hmd. eexists. split; [by apply save_index_unlocked|].
  split; by eapply (load_saved index metadata dir); [..|apply save_index_unlocked].
Qed.

(** X8: a write failure inside [save_index] is swallowed. When the index
    file cannot be written nothing changes; when only the metadata file
    cannot be written the new index is stored next to the metadata of
    before. In both cases [save_index] returns normally. *)
Theorem save_index_write_failure (index : faiss_index) (metadata : list meta_dict)
    (dir : directory) :
  ("faiss_index.bin"%string ∈ locked dir →
     DocumentIngester.save_index index metadata dir = (Ok (), dir))
  ∧ ("faiss_index.bin"%string ∉ locked dir → "metadata.pkl"%string ∈ locked dir →
     ∃ dir',
       DocumentIngester.save_index index metadata dir = (Ok (), dir')
       ∧ files dir' !! "faiss_index.bin"%string = Some (FaissBinary index)
       ∧ files dir' !! "metadata.pkl"%string = files dir !! "metadata.pkl"%string).
Proof.
  split.
  - intros Hidx. io_steps. by destruct (decide ("faiss_index.bin"%string ∈ locked dir)).
  - intros Hidx Hmd. io_steps.
    destruct (decide ("faiss_index.bin"%string ∈ locked dir)); [done|]. simpl.
    destruct (decide ("metadata.pkl"%string ∈ locked dir)); [|done].
    eexists. split; [done|]. simpl. split.
    + by rewrite lookup_insert_eq.
    + by rewrite lookup_insert_ne.
Qed.

End PersistenceRoundTrip.

Lemma save_index_load_index_witness :
  ∃ dir',
    DocumentIngester.save_index Demo.three_vectors [Demo.meta 0] Demo.empty_dir = (Ok (), dir')
    ∧ DocumentIngester.load_index dir' = (Ok (Some Demo.three_vectors, [Demo.meta 0]), dir')
    ∧ RAGProcessor.load_index dir' = (Ok (Some Demo.three_vectors, [Demo.meta 0]), dir').
Proof.
  apply (save_index_load_index (Nm:=Demo.integers)); vm_compute; set_solver.
Defined.

Lemma save_index_write_failure_witness :
  DocumentIngester.save_index Demo.three_vectors [Demo.meta 0] Demo.locked_dir
  = (Ok (), Demo.locked_dir).
Proof.
  apply (save_index_write_failure (Nm:=Demo.integers)). vm_compute. set_solver.
Defined.

(** * Further properties of the ingestion pipeline *)

Section IngestionOutput.
Context {P : Parsers} {U : UnicodeData} {Nm : Numeric} {E : Embedder}.
Import DocumentIngester.

Lemma chunk_metadata_describes files file_path total chunks :
  file_path ∈ files →
  ∀ i, 0 <= i → i + Py.len chunks <= total →
       Forall2 (describes files) chunks (chunk_metadata (name file_path) total i chunks).
Proof.
  intros Hin. induction chunks as [|chunk rest IH]; intros i Hi Htotal; simpl; [constructor|].
  unfold Py.len in Htotal. simpl in Htotal.
  constructor.
  - unfold describes. simpl. split; [done|]. split; [lia|]. eauto.
  - apply IH; unfold Py.len; lia.
Qed.

Lemma process_files_describes self all_files files fuel :
  (∀ f, f ∈ files → f ∈ all_files) →
  ∀ all_chunks all_metadata gathered,
    process_files fuel self files all_chunks all_metadata = Some (Ok gathered) →
    Forall2 (describes all_files) all_chunks all_metadata →
    Forall2 (describes all_files) gathered.1 gathered.2.
Proof.
  induction files as [|f rest IH]; intros Hsub all_chunks all_metadata gathered Hr Hacc;
    simpl in Hr.
  { by simplify_eq. }
  assert (∀ g, g ∈ rest → g ∈ all_files) as Hrest by (intros g Hg; apply Hsub; by right).
  destruct (extract_text f) as [text|e]; [|done].
  destruct (negb (Py.truthy text)); [by eapply IH|].
  destruct (chunk_text fuel self (clean_text text)) as [chunks|]; [|done].
  eapply IH; [done..|].
  apply Forall2_app; [done|].
  apply chunk_metadata_describes; [apply Hsub; by left | lia | lia].
Qed.

(** X9: under the configuration of [__init__] the loop over the files
    returns a chunk list and a metadata list of the same length, and the
    entry at each position describes the chunk at that position: its
    [text_length] is the length of the chunk, its [chunk_id] lies in
    [0 .. total_chunks - 1], and its [source] is the name of one of the
    files. *)
Theorem process_files_aligned (files : list source_file) :
  ∃ all_chunks all_metadata,
    (∀ fuel, (fuel_for files ≤ fuel)%nat →
             process_files fuel init files [] [] = Some (Ok (all_chunks, all_metadata)))
    ∧ Forall2 (describes files) all_chunks all_metadata.
Proof.
  destruct (process_files_enough_fuel files (fuel_for files)) with
    (all_chunks := @nil pystr) (all_metadata := @nil meta_dict) as [r Hr].
  { intros f text Hin. by apply fuel_for_bound. }
  destruct (process_files_returns _ _ _ _ _ _ Hr) as [[all_chunks all_metadata] ->].
  exists all_chunks, all_metadata. split.
  - intros fuel Hfuel.
    replace fuel with (fuel_for files + (fuel - fuel_for files))%nat by lia.
    by apply process_files_more_fuel.
  - by apply (process_files_describes init files files _ ltac:(done) _ _ _ Hr).
Qed.

Lemma process_documents_saves fuel self sources_dir index_dir
    existing_index existing_metadata all_chunks all_metadata embeddings index merged :
  load_index index_dir = (Ok (existing_index, existing_metadata), index_dir) →
  process_files fuel self (supported_files sources_dir) [] []
  = Some (Ok (all_chunks, all_metadata)) →
  all_chunks ≠ [] →
  encode all_chunks = Ok embeddings → size embeddings ≠ 0 →
  match existing_index with
  | Some existing_index =>
      Faiss.add existing_index embeddings = Ok index
      ∧ merged = existing_metadata ++ all_metadata
  | None =>
      Faiss.add (Faiss.IndexFlatIP (embedding_dim self)) embeddings = Ok index
      ∧ merged = all_metadata
  end →
  process_documents fuel self sources_dir index_dir
  = Some (save_index index merged index_dir).
Proof.
  intros Hl Hfiles Hne Henc Hsize Hadd. unfold process_documents.
  destruct (supported_files sources_dir) as [|f files] eqn:Hs.
  { simpl in Hfiles. simplify_eq. }
  simpl negb. cbv iota. rewrite Hl, Hfiles.
  destruct all_chunks as [|chunk all_chunks]; [done|]. simpl negb. cbv iota.
  unfold create_embeddings. rewrite Henc. simpl.
  destruct (Z.eqb_spec (size embeddings) 0); [done|].
  destruct existing_index as [existing_index|]; destruct Hadd as [-> ->]; done.
Qed.

Lemma add_rows (index : faiss_index) (x : ndarray) :
  Forall (fun v => Py.len v = d index) x →
  Faiss.add index x = Ok {| d := d index; vectors := vectors index ++ x |}.
Proof.
  intros Hrows. unfold Faiss.add.
  rewrite (proj2 (forallb_forall _ _)); [done|].
  intros v Hv. apply Z.eqb_eq. rewrite Forall_forall in Hrows.
  by apply Hrows, list_elem_of_In.
Qed.

(** X10: ingestion appends. When the directory holds an index and a
    metadata list, the embedding model gives rows of the dimension of
    that index and both files can be written, a run stores the old
    vectors followed by the new ones and the old metadata followed by
    the new entries; nothing that was stored is changed or removed. *)
Theorem process_documents_appends fuel self sources_dir index_dir
    existing_index existing_metadata all_chunks all_metadata embeddings :
  load_index index_dir = (Ok (Some existing_index, existing_metadata), index_dir) →
  process_files fuel self (supported_files sources_dir) [] []
  = Some (Ok (all_chunks, all_metadata)) →
  all_chunks ≠ [] →
  encode all_chunks = Ok embeddings → size embeddings ≠ 0 →
  Forall (fun v => Py.len v = d existing_index) embeddings →
  "faiss_index.bin"%string ∉ locked index_dir → "metadata.pkl"%string ∉ locked index_dir →
  ∃ index_dir',
    process_documents fuel self sources_dir index_dir = Some (Ok (), index_dir')
    ∧ load_index index_dir'
      = (Ok (Some {| d := d existing_index; vectors := vectors existing_index ++ embeddings |},
             existing_metadata ++ all_metadata), index_dir').
Proof.
  intros Hl Hfiles Hne Henc Hsize Hrows Hidx Hmd.
  eexists. split.
  - erewrite process_documents_saves; [|done..|].
    + by rewrite save_index_unlocked.
    + simpl. split; [by apply add_rows | done].
  - apply load_index_present; simpl.
    + rewrite lookup_insert_ne by done. by rewrite lookup_insert_eq.
    + by rewrite lookup_insert_eq.
Qed.

(** X11: when [load_index] finds no index (a file is missing or
    unreadable), a run starts a fresh index of dimension
    [embedding_dim] and stores only the new metadata: a metadata file
    left in the directory is replaced, not extended. *)
Theorem process_documents_starts_fresh fuel self sources_dir index_dir
    stale_metadata all_chunks all_metadata embeddings :
  load_index index_dir = (Ok (None, stale_metadata), index_dir) →
  process_files fuel self (supported_files sources_dir) [] []
  = Some (Ok (all_chunks, all_metadata)) →
  all_chunks ≠ [] →
  encode all_chunks = Ok embeddings → size embeddings ≠ 0 →
  Forall (fun v => Py.len v = embedding_dim self) embeddings →
  "faiss_index.bin"%string ∉ locked index_dir → "metadata.pkl"%string ∉ locked index_dir →
  ∃ index_dir',
    process_documents fuel self sources_dir index_dir = Some (Ok (), index_dir')
    ∧ load_index index_dir'
      = (Ok (Some {| d := embedding_dim self; vectors := embeddings |}, all_metadata),
         index_dir').
Proof.
  intros Hl Hfiles Hne Henc Hsize Hrows Hidx Hmd.
  eexists. split.
  - erewrite process_documents_saves; [|done..|].
    + by rewrite save_index_unlocked.
    + simpl. split; [|done].
      by rewrite (add_rows (Faiss.IndexFlatIP (embedding_dim self)) embeddings).
  - apply load_index_present; simpl.
    + rewrite lookup_insert_ne by done. by rewrite lookup_insert_eq.
    + by rewrite lookup_insert_eq.
Qed.



End IngestionOutput.

Lemma process_files_aligned_witness :
  ∃ all_chunks all_metadata,
    DocumentIngester.process_files (P:=Demo.text_files) (U:=Demo.ascii_only) 12
      DocumentIngester.init Demo.sources [] []
    = Some (Ok (all_chunks, all_metadata))
    ∧ Forall2 (describes Demo.sources) all_chunks all_metadata.
Proof.
  destruct (process_files_aligned (P:=Demo.text_files) (U:=Demo.ascii_only) Demo.sources)
    as (all_chunks & all_metadata & Hrun & Hall).
  exists all_chunks, all_metadata. split; [|exact Hall].
  apply Hrun. vm_compute. lia.
Defined.

Lemma process_documents_appends_witness :
  ∃ index_dir',
    DocumentIngester.process_documents (P:=Demo.text_files) (U:=Demo.ascii_only)
      (E:=Demo.constant_model) 12 DocumentIngester.init Demo.sources Demo.ingested_dir
    = Some (Ok (), index_dir')
    ∧ DocumentIngester.load_index index_dir'
      = (Ok (Some (@Build_faiss_index Demo.integers 384 ([Demo.row] ++ [Demo.row])),
             [Demo.hello_metadata] ++ [Demo.hello_metadata]), index_dir').
Proof.
  apply (process_documents_appends (P:=Demo.text_files) (U:=Demo.ascii_only)
           (E:=Demo.constant_model) 12 DocumentIngester.init Demo.sources Demo.ingested_dir
           (@Build_faiss_index Demo.integers 384 [Demo.row]) [Demo.hello_metadata]
           [py "hello world"] [Demo.hello_metadata] [Demo.row]).
  - reflexivity.
  - reflexivity.
  - discriminate.
  - reflexivity.
  - vm_compute. discriminate.
  - repeat constructor.
  - vm_compute. set_solver.
  - vm_compute. set_solver.
Defined.

Lemma process_documents_starts_fresh_witness :
  ∃ index_dir',
    DocumentIngester.process_documents (P:=Demo.text_files) (U:=Demo.ascii_only)
      (E:=Demo.constant_model) 12 DocumentIngester.init Demo.sources Demo.empty_dir
    = Some (Ok (), index_dir')
    ∧ DocumentIngester.load_index index_dir'
      = (Ok (Some (@Build_faiss_index Demo.integers 384 [Demo.row]),
             [Demo.hello_metadata]), index_dir').
Proof.
  apply (process_documents_starts_fresh (P:=Demo.text_files) (U:=Demo.ascii_only)
           (E:=Demo.constant_model) 12 DocumentIngester.init Demo.sources Demo.empty_dir
           [] [py "hello world"] [Demo.hello_metadata] [Demo.row]).
  - reflexivity.
  - reflexivity.
  - discriminate.
  - reflexivity.
  - vm_compute. discriminate.
  - repeat constructor.
  - vm_compute. set_solver.
  - vm_compute. set_solver.
Defined.




(** * Further properties of retrieval *)

Section RetrievalOutput.
Context {Nm : Numeric} {E : Embedder} {V : VectorSearch}.
Import RAGProcessor.

Lemma retrieve_relevant_chunks_searched self query index metadata chunks
    embedding scores indices :
  encode [query] = Ok embedding → size embedding ≠ 0 →
  search index embedding (Z.min (top_k self) (Faiss.ntotal index)) = Ok (scores, indices) →
  retrieve_relevant_chunks self query index metadata chunks
  = catch (relevant_chunks ← collect metadata chunks (zip scores indices) [];
           Ok (sort_by_score_desc relevant_chunks))
          (fun e => Ok []).
Proof.
  intros Henc Hsize Hsearch.
  unfold retrieve_relevant_chunks, create_query_embedding. rewrite Henc. simpl.
  destruct (Z.eqb_spec (size embedding) 0); [done|]. by rewrite Hsearch.
Qed.

Lemma zip_nonnegative (scores : list scalar) (indices : list Z) :
  Forall (fun idx => 0 <= idx) indices →
  Forall (fun r : scalar * Z => 0 <= r.2) (zip scores indices).
Proof.
  intros Hall. revert scores.
  induction Hall as [|idx rest Hidx _ IH]; intros [|s scores]; simpl; constructor; eauto.
Qed.

Lemma entry_at_valid metadata chunks (r : scalar * Z) entry :
  0 <= r.2 → entry_at metadata chunks r = Some entry →
  r.2 < Py.len chunks ∧ r.2 < Py.len metadata
  ∧ chunks !! Z.to_nat (r.2) = Some (text entry)
  ∧ metadata !! Z.to_nat (r.2) = Some (RAGProcessor.metadata entry)
  ∧ score entry = r.1.
Proof.
  intros Hnn. unfold entry_at.
  destruct (chunks !! Z.to_nat r.2) as [chunk|] eqn:Hc; [|done].
  destruct (metadata !! Z.to_nat r.2) as [m|] eqn:Hm; [|done].
  intros [= <-]. simpl.
  apply lookup_lt_Some in Hc, Hm. unfold Py.len. repeat split; try done; lia.
Qed.

(** X14: when the labels given by the search are not negative, the
    evidence list holds exactly the results whose position lies in both
    lists (sorting only reorders them), and the text and the metadata of
    every entry come from the position of its result, with the score of
    that result. *)
Theorem retrieve_relevant_chunks_positions self query index metadata chunks
    embedding scores indices :
  encode [query] = Ok embedding → size embedding ≠ 0 →
  search index embedding (Z.min (top_k self) (Faiss.ntotal index)) = Ok (scores, indices) →
  Forall (fun idx => 0 <= idx) indices →
  ∃ relevant_chunks,
    retrieve_relevant_chunks self query index metadata chunks = Ok relevant_chunks
    ∧ relevant_chunks ≡ₚ omap (entry_at metadata chunks) (zip scores indices)
    ∧ ∀ entry, entry ∈ relevant_chunks →
        ∃ idx, (score entry, idx) ∈ zip scores indices
               ∧ 0 <= idx < Py.len chunks ∧ idx < Py.len metadata
               ∧ chunks !! Z.to_nat idx = Some (text entry)
               ∧ metadata !! Z.to_nat idx = Some (RAGProcessor.metadata entry).
Proof.
  intros Henc Hsize Hsearch Hnn.
  rewrite (retrieve_relevant_chunks_searched _ _ _ _ _ _ _ _ Henc Hsize Hsearch).
  apply (zip_nonnegative scores) in Hnn.
  rewrite (collect_nonnegative _ _ _ Hnn). simpl.
  eexists. split; [done|]. split; [apply sort_by_score_desc_Permutation|].
  intros entry Hin. rewrite sort_by_score_desc_Permutation in Hin.
  apply list_elem_of_omap in Hin as ([s idx] & Hr & Hentry).
  rewrite Forall_forall in Hnn. specialize (Hnn _ Hr).
  destruct (entry_at_valid _ _ _ _ Hnn Hentry) as (Hc & Hm & Htext & Hmeta & Hscore).
  simpl in *. exists idx. rewrite Hscore. repeat split; try done.
Qed.

Lemma collect_raises metadata chunks results :
  (∃ r, r ∈ results ∧ (r.2 < - Py.len chunks ∨ r.2 < - Py.len metadata)) →
  ∀ relevant_chunks, ∃ e, collect metadata chunks results relevant_chunks = Raise e.
Proof.
  induction results as [|[s idx] rest IH]; intros (r & Hin & Hbad) acc.
  { by apply elem_of_nil in Hin. }
  simpl.
  apply elem_of_cons in Hin as [->|Hin]; simpl in *.
  - assert ((idx <? Py.len chunks) = true) as -> by (apply Z.ltb_lt; unfold Py.len in *; lia).
    assert ((idx <? Py.len metadata) = true) as -> by (apply Z.ltb_lt; unfold Py.len in *; lia).
    simpl. unfold getitem, Py.index.
    destruct (Z.leb_spec 0 idx); [unfold Py.len in *; lia|].
    destruct Hbad as [Hbad|Hbad].
    + destruct (Z.leb_spec 0 (idx + Py.len chunks)); [lia|]. simpl. eauto.
    + destruct (Z.leb_spec 0 (idx + Py.len chunks)).
      * destruct (chunks !! _); simpl; [|eauto].
        destruct (Z.leb_spec 0 (idx + Py.len metadata)); [lia|]. simpl. eauto.
      * simpl. eauto.
  - destruct (_ && _); [|apply IH; eauto].
    destruct (getitem chunks idx); simpl; [|eauto].
    destruct (getitem metadata idx); simpl; [|eauto].
    apply IH. eauto.
Qed.

(** X15: a single label below [-len(chunks)] or below [-len(metadata)]
    makes the indexing raise inside the loop; the handler then returns
    the empty list, so the valid results of the same search are lost as
    well. *)
Theorem retrieve_relevant_chunks_index_error self query index metadata chunks
    embedding scores indices :
  encode [query] = Ok embedding → size embedding ≠ 0 →
  search index embedding (Z.min (top_k self) (Faiss.ntotal index)) = Ok (scores, indices) →
  (∃ r, r ∈ zip scores indices ∧ (r.2 < - Py.len chunks ∨ r.2 < - Py.len metadata)) →
  retrieve_relevant_chunks self query index metadata chunks = Ok [].
Proof.
  intros Henc Hsize Hsearch Hbad.
  rewrite (retrieve_relevant_chunks_searched _ _ _ _ _ _ _ _ Henc Hsize Hsearch).
  by destruct (collect_raises metadata chunks _ Hbad []) as [e ->].
Qed.

Lemma size_list_to_set_le (l : list string) :
  (base.size (list_to_set l : gset string) ≤ length l)%nat.
Proof.
  induction l as [|x l IH]; [by rewrite list_to_set_nil, size_empty|].
  rewrite list_to_set_cons. simpl.
  destruct (decide (x ∈ (list_to_set l : gset string))).
  - assert ({[x]} ∪ list_to_set l = (list_to_set l : gset string)) as Heq.
    { apply set_eq. intros y. rewrite elem_of_union, elem_of_singleton.
      split; [by intros [->|?] | by right]. }
    rewrite Heq. lia.
  - rewrite size_union by set_solver. rewrite size_singleton. lia.
Qed.

Lemma stats_of_loaded (dir : directory) index metadata chunks :
  load_index dir = (Ok (index, metadata), dir) →
  load_chunks dir = (Ok chunks, dir) →
  get_knowledge_base_stats dir
  = (Ok match index with
        | None => {| total_documents := 0; total_chunks := 0; total_vectors := 0;
                     sources := ∅; error := None |}
        | Some index =>
            {| total_documents := Z.of_nat (base.size (list_to_set (map source metadata) : gset string));
               total_chunks := Py.len chunks;
               total_vectors := Faiss.ntotal index;
               sources := list_to_set (map source metadata);
               error := None |}
        end, dir).
Proof.
  intros Hl Hc. unfold get_knowledge_base_stats, io_catch, mbind, io_bind, mret, io_ret.
  rewrite Hl, Hc. by destruct index.
Qed.

(** X16: [get_knowledge_base_stats] returns normally and leaves the
    directory as it was. Without a loadable index every count is zero,
    also when chunk texts are stored. With an index, [total_vectors] is
    its size, [total_chunks] is the number of stored chunk texts (zero
    without a chunk-text file), and [total_documents] is the number of
    distinct sources of the metadata, at most the number of metadata
    entries. *)
Theorem get_knowledge_base_stats_counts (dir : directory) :
  ∃ s,
    get_knowledge_base_stats dir = (Ok s, dir)
    ∧ error s = None
    ∧ total_documents s = Z.of_nat (base.size (sources s))
    ∧ (∀ metadata, load_index dir = (Ok (None, metadata), dir) →
         total_documents s = 0 ∧ total_chunks s = 0 ∧ total_vectors s = 0)
    ∧ (∀ index metadata,
         load_index dir = (Ok (Some index, metadata), dir) →
         total_vectors s = Faiss.ntotal index
         ∧ (∀ x, x ∈ sources s ↔ ∃ entry, entry ∈ metadata ∧ source entry = x)
         ∧ total_documents s <= Py.len metadata
         ∧ (∀ chunks, load_chunks dir = (Ok chunks, dir) → total_chunks s = Py.len chunks)
         ∧ (files dir !! "chunks.pkl"%string = None → total_chunks s = 0)).
Proof.
  destruct (load_index_returns dir) as [[index metadata] Hl].
  change (DocumentIngester.load_index dir) with (load_index dir) in Hl.
  destruct (load_chunks_returns (Nm:=Nm) dir) as [chunks Hc].
  eexists. split; [by apply (stats_of_loaded dir index metadata chunks)|].
  destruct index as [index|]; simpl.
  - split; [done|]. split; [done|]. split; [intros ? ?; congruence|].
    intros index' metadata' Hl'.
    assert (index' = index ∧ metadata' = metadata) as [-> ->] by (split; congruence).
    split; [done|]. split; [|split; [|split]].
    + intros x. rewrite elem_of_list_to_set, list_elem_of_In, in_map_iff.
      split; intros (entry & H1 & H2); exists entry; by rewrite ?list_elem_of_In in *.
    + unfold Py.len. rewrite <- (length_map source metadata).
      apply inj_le, size_list_to_set_le.
    + intros chunks' Hc'. congruence.
    + intros Hnone. apply (load_chunks_absent (Nm:=Nm)) in Hnone.
      assert (chunks = []) as -> by congruence. done.
  - split; [done|]. split; [done|]. split; [done|].
    intros index' metadata' Hl'. congruence.
Qed.

End RetrievalOutput.

Lemma retrieve_relevant_chunks_positions_witness :
  ∃ relevant_chunks,
    RAGProcessor.retrieve_relevant_chunks (E:=Demo.constant_model) (V:=Demo.first_k_search)
      Demo.processor (py "q") Demo.three_vectors
      [Demo.meta 0; Demo.meta 1] [py "a"; py "b"; py "c"]
    = Ok relevant_chunks
    ∧ relevant_chunks
      ≡ₚ omap (entry_at [Demo.meta 0; Demo.meta 1] [py "a"; py "b"; py "c"])
           (zip (replicate 3 (0 : @scalar Demo.integers)) [0; 1; 2])
    ∧ ∀ entry, entry ∈ relevant_chunks →
        ∃ idx, (RAGProcessor.score entry, idx)
                 ∈ zip (replicate 3 (0 : @scalar Demo.integers)) [0; 1; 2]
               ∧ 0 <= idx < Py.len [py "a"; py "b"; py "c"]
               ∧ idx < Py.len [Demo.meta 0; Demo.meta 1]
               ∧ [py "a"; py "b"; py "c"] !! Z.to_nat idx = Some (RAGProcessor.text entry)
               ∧ [Demo.meta 0; Demo.meta 1] !! Z.to_nat idx
                 = Some (RAGProcessor.metadata entry).
Proof.
  apply (retrieve_relevant_chunks_positions (E:=Demo.constant_model) (V:=Demo.first_k_search)
           Demo.processor (py "q") Demo.three_vectors _ _ [Demo.row]).
  - reflexivity.
  - vm_compute. discriminate.
  - reflexivity.
  - repeat constructor; done.
Defined.

Lemma retrieve_relevant_chunks_index_error_witness :
  RAGProcessor.retrieve_relevant_chunks (E:=Demo.constant_model) (V:=Demo.wild_search)
    Demo.processor (py "q") Demo.three_vectors
    [Demo.meta 0; Demo.meta 1; Demo.meta 2] [py "a"; py "b"; py "c"]
  = Ok [].
Proof.
  apply (retrieve_relevant_chunks_index_error (E:=Demo.constant_model) (V:=Demo.wild_search)
           Demo.processor (py "q") Demo.three_vectors _ _ [Demo.row]
           ([9; 7] : list (@scalar Demo.integers)) [0; -7]).
  - reflexivity.
  - vm_compute. discriminate.
  - reflexivity.
  - exists (7, -7). split; [right; left|]. left. vm_compute. reflexivity.
Defined.

Lemma get_knowledge_base_stats_counts_witness :
  ∃ s,
    RAGProcessor.get_knowledge_base_stats Demo.ingested_dir = (Ok s, Demo.ingested_dir)
    ∧ RAGProcessor.total_vectors s = 1 ∧ RAGProcessor.total_chunks s = 0.
Proof.
  destruct (get_knowledge_base_stats_counts (Nm:=Demo.integers) Demo.ingested_dir)
    as (s & Hrun & _ & _ & _ & Hsome).
  exists s. split; [exact Hrun|].
  destruct (Hsome (@Build_faiss_index Demo.integers 384 [Demo.row]) [Demo.hello_metadata])
    as (Hv & _ & _ & _ & Hc); [reflexivity|].
  split; [exact Hv | apply Hc; reflexivity].
Defined.

(** * Further properties of answering *)

Section AnswerOutput.
Context {Nm : Numeric} {E : Embedder} {V : VectorSearch} {C : ChatModel}.
Import RAGProcessor.

Lemma prefix_take {A} (l : list A) (n : nat) : Py.prefix l n = take n l.
Proof.
  unfold Py.prefix, Py.slice, Py.adjust, Py.len. simpl.
  destruct (Z.ltb_spec (Z.of_nat n) 0); [lia|].
  rewrite (Z.min_l 0) by lia. rewrite Z.sub_0_r.
  change (drop (Z.to_nat 0) l) with l.
  destruct (decide (n ≤ length l)%nat).
  - f_equal. lia.
  - rewrite !take_ge by lia. done.
Qed.

Lemma prefix_length {A} (l : list A) (n : nat) : Py.len (Py.prefix l n) <= Z.of_nat n.
Proof. rewrite prefix_take. unfold Py.len. rewrite length_take. lia. Qed.

(** X17: the mock response of an empty evidence list is a fixed
    message. Otherwise only the first two evidence entries take part,
    and the response is at most 527 characters longer than the query:
    the excerpt is cut at 300 characters. *)
Theorem mock_response_bounded (query : pystr) (context_chunks : list evidence) :
  (context_chunks = [] →
     _generate_mock_response query context_chunks
     = py "I don't have enough information in my knowledge base to answer your question. Please upload some documents first.")
  ∧ (∀ c1 c2 rest,
       context_chunks = c1 :: c2 :: rest →
       _generate_mock_response query context_chunks = _generate_mock_response query [c1; c2])
  ∧ (context_chunks ≠ [] →
     Py.len (_generate_mock_response query context_chunks) <= Py.len query + 527).
Proof.
  split; [by intros ->|]. split.
  - intros c1 c2 rest ->. unfold _generate_mock_response. simpl negb. cbv iota.
    by rewrite !prefix_take.
  - intros Hne. unfold _generate_mock_response.
    destruct context_chunks as [|c rest]; [done|]. simpl negb. cbv iota.
    set (summary := Py.join _ _).
    pose proof (prefix_length summary 300) as Hex.
    unfold Py.len in *. rewrite !length_app.
    change (length quote) with 1%nat. change (length newline) with 1%nat.
    change (length (py "...")) with 3%nat.
    change (length (py "Based on the documents in my knowledge base, here's what I found related to your question: ")) with 91%nat.
    change (length (py "Note: This is a mock response. To get more accurate answers, please configure your OpenAI API key in the environment variables.")) with 127%nat.
    lia.
Qed.

Lemma process_query_without_chunks self query (dir : directory) :
  files dir !! "chunks.pkl"%string = None →
  ∃ answer,
    process_query self query dir = (Ok answer, dir)
    ∧ (answer = no_knowledge_base ∨ answer = no_text_chunks).
Proof.
  intros Hnone. apply (load_chunks_absent (Nm:=Nm)) in Hnone.
  destruct (load_index_returns dir) as [[index metadata] Hl].
  change (DocumentIngester.load_index dir) with (load_index dir) in Hl.
  unfold process_query, io_catch, mbind, io_bind, mret, io_ret.
  rewrite Hl. destruct index as [index|]; [|eauto].
  rewrite Hnone. simpl. eauto.
Qed.

End AnswerOutput.

Lemma mock_response_bounded_witness :
  Py.len (RAGProcessor._generate_mock_response (py "q") [Demo.evidence_of (py "a") (Demo.meta 0) 1])
  <= Py.len (py "q") + 527.
Proof.
  apply (mock_response_bounded (Nm:=Demo.integers)). discriminate.
Defined.

(** * Ingestion followed by a query *)

Section IngestThenQuery.
Context {P : Parsers} {U : UnicodeData} {Nm : Numeric} {E : Embedder}
        {V : VectorSearch} {C : ChatModel}.

(** X18: a query never reaches retrieval on what ingestion alone has
    stored. When the index directory holds no chunk-text file, a run of
    [process_documents] returns, and every later query is answered by
    the "no knowledge base" message or by the "no text chunks"
    message. *)
Theorem query_after_ingestion (sources_dir : list source_file) (index_dir : directory)
    (self : RAGProcessor.t) (query : pystr) :
  files index_dir !! "chunks.pkl"%string = None →
  ∃ r index_dir',
    (∀ fuel, (DocumentIngester.fuel_for sources_dir ≤ fuel)%nat →
             DocumentIngester.process_documents fuel DocumentIngester.init sources_dir index_dir
             = Some (r, index_dir'))
    ∧ ∃ answer,
        RAGProcessor.process_query self query index_dir' = (Ok answer, index_dir')
        ∧ (answer = RAGProcessor.no_knowledge_base ∨ answer = RAGProcessor.no_text_chunks).
Proof.
  intros Hnone.
  destruct (process_documents_returns sources_dir index_dir) as [[r index_dir'] Hrun].
  exists r, index_dir'. split; [done|].
  specialize (Hrun (DocumentIngester.fuel_for sources_dir) ltac:(lia)).
  apply process_documents_frame in Hrun as [_ Hframe].
  apply process_query_without_chunks.
  by rewrite Hframe.
Qed.

End IngestThenQuery.

Lemma query_after_ingestion_witness :
  ∃ r index_dir',
    DocumentIngester.process_documents (P:=Demo.text_files) (U:=Demo.ascii_only)
      (E:=Demo.constant_model) 12 DocumentIngester.init Demo.sources Demo.empty_dir
    = Some (r, index_dir')
    ∧ ∃ answer,
        RAGProcessor.process_query (E:=Demo.constant_model) (V:=Demo.first_k_search)
          (C:=Demo.failing_chat) Demo.processor (py "hello") index_dir'
        = (Ok answer, index_dir')
        ∧ (answer = RAGProcessor.no_knowledge_base ∨ answer = RAGProcessor.no_text_chunks).
Proof.
  destruct (query_after_ingestion (P:=Demo.text_files) (U:=Demo.ascii_only)
              (E:=Demo.constant_model) (V:=Demo.first_k_search) (C:=Demo.failing_chat)
              Demo.sources Demo.empty_dir Demo.processor (py "hello"))
    as (r & index_dir' & Hrun & Hanswer); [reflexivity|].
  exists r, index_dir'. split; [|exact Hanswer].
  apply Hrun. vm_compute. lia.
Defined.

(** * Append-only storage *)

Section AppendOnly.
Context {P : Parsers} {U : UnicodeData} {Nm : Numeric} {E : Embedder}.
Import DocumentIngester.

Lemma load_index_some_inv (dir : directory) index metadata :
  load_index dir = (Ok (Some index, metadata), dir) →
  files dir !! "faiss_index.bin"%string = Some (FaissBinary index)
  ∧ files dir !! "metadata.pkl"%string = Some (PickledMetadata metadata).
Proof.
  io_steps.
  destruct (files dir !! "faiss_index.bin"%string) as [[]|] eqn:Eidx;
    destruct (files dir !! "metadata.pkl"%string) as [[]|] eqn:Emd;
    simpl; rewrite ?Eidx, ?Emd; simpl; intros ?; by simplify_eq.
Qed.

Lemma save_index_keeps_prefix (dir : directory) existing_index existing_metadata index extra :
  load_index dir = (Ok (Some existing_index, existing_metadata), dir) →
  ∃ dir' index' extra',
    save_index index (existing_metadata ++ extra) dir = (Ok (), dir')
    ∧ load_index dir' = (Ok (Some index', existing_metadata ++ extra'), dir').
Proof.
  intros [Hidx Hmd]%load_index_some_inv.
  destruct (decide ("faiss_index.bin"%string ∈ locked dir)) as [Hl1|Hl1].
  - exists dir, existing_index, []. split.
    + io_steps. by destruct (decide ("faiss_index.bin"%string ∈ locked dir)).
    + rewrite app_nil_r. by apply load_index_present.
  - destruct (decide ("metadata.pkl"%string ∈ locked dir)) as [Hl2|Hl2].
    + exists {| files := <["faiss_index.bin"%string := FaissBinary index]> (files dir);
                locked := locked dir |}, index, [].
      split.
      * io_steps. destruct (decide ("faiss_index.bin"%string ∈ locked dir)); [done|]. simpl.
        destruct (decide ("metadata.pkl"%string ∈ locked dir)); [|done]. reflexivity.
      * rewrite app_nil_r. apply load_index_present; simpl.
        -- by rewrite lookup_insert_eq.
        -- by rewrite lookup_insert_ne.
    + eexists _, index, extra. split; [by apply save_index_unlocked|].
      apply load_index_present; simpl.
      * rewrite lookup_insert_ne by done. by rewrite lookup_insert_eq.
      * by rewrite lookup_insert_eq.
Qed.

Lemma process_documents_keeps_prefix fuel self sources_dir (index_dir : directory)
    existing_index existing_metadata r index_dir' :
  load_index index_dir = (Ok (Some existing_index, existing_metadata), index_dir) →
  process_documents fuel self sources_dir index_dir = Some (r, index_dir') →
  ∃ index extra,
    load_index index_dir' = (Ok (Some index, existing_metadata ++ extra), index_dir').
Proof.
  intros Hl Hrun.
  assert (∃ index extra, load_index index_dir
                         = (Ok (Some index, existing_metadata ++ extra), index_dir)) as Hsame.
  { exists existing_index, []. by rewrite app_nil_r. }
  unfold process_documents in Hrun. rewrite Hl in Hrun.
  destruct (negb (Py.truthy _)); [by simplify_eq|].
  destruct (process_files _ _ _ _ _) as [[[all_chunks all_metadata]|e]|]; [|by simplify_eq|done].
  destruct (negb (Py.truthy all_chunks)); [by simplify_eq|].
  destruct (create_embeddings all_chunks) as [embeddings|e]; [|by simplify_eq].
  destruct (size embeddings =? 0); [by simplify_eq|].
  simpl in Hrun.
  destruct (Faiss.add existing_index embeddings) as [index|e]; simpl in Hrun; [|by simplify_eq].
  destruct (save_index_keeps_prefix index_dir existing_index existing_metadata index all_metadata Hl)
    as (dir2 & index2 & extra2 & Hsave & Hload).
  rewrite Hsave in Hrun. simplify_eq. eauto.
Qed.

(** X19: ingestion never removes or changes a stored metadata entry.
    When an index and a metadata list can be loaded before a run, an
    index and a metadata list can be loaded after it, and the metadata
    list after the run starts with the list of before, whatever the run
    did (returned early, raised, or saved with or without a write
    failure). *)
Theorem process_documents_append_only fuel self sources_dir (index_dir : directory)
    existing_index existing_metadata r index_dir' :
  load_index index_dir = (Ok (Some existing_index, existing_metadata), index_dir) →
  process_documents fuel self sources_dir index_dir = Some (r, index_dir') →
  ∃ index extra,
    load_index index_dir' = (Ok (Some index, existing_metadata ++ extra), index_dir').
Proof. apply process_documents_keeps_prefix. Qed.

End AppendOnly.

Lemma process_documents_append_only_witness :
  ∃ index extra,
    DocumentIngester.load_index Demo.full_dir
    = (Ok (Some index, [Demo.meta 0; Demo.meta 1; Demo.meta 2] ++ extra), Demo.full_dir).
Proof.
  apply (process_documents_append_only (P:=Demo.text_files) (U:=Demo.ascii_only)
           (E:=Demo.constant_model) 12 DocumentIngester.init Demo.sources Demo.full_dir
           Demo.three_vectors _ (Raise (Exception (py "AssertionError")))).
  - reflexivity.
  - reflexivity.
Defined.

(** * The request handlers *)

Section HandlerFacts.
Context {P : Parsers} {U : UnicodeData} {Nm : Numeric} {E : Embedder}
        {V : VectorSearch} {C : ChatModel} {F : Framework}.
Import App.

Lemma save_uploads_rejected (before : list UploadFile) f after :
  Forall (fun g => accepted (filename g) = true) before →
  accepted (filename f) = false →
  ∀ sources_dir uploaded_files,
    save_uploads (before ++ f :: after) sources_dir uploaded_files
    = (Failed (Http 400 (py "Unsupported file type: " ++ Py.of_string (filename f))),
       fold_left (fun dir g => write_source dir (filename g) (file g)) before sources_dir).
Proof.
  intros Hbefore Hf.
  induction Hbefore as [|g before Hg _ IH]; intros sources_dir uploaded_files; simpl.
  - by rewrite Hf.
  - rewrite Hg. simpl. apply IH.
Qed.

Lemma save_uploads_accepted (files : list UploadFile) :
  Forall (fun g => accepted (filename g) = true) files →
  ∀ sources_dir uploaded_files,
    save_uploads files sources_dir uploaded_files
    = (Done (uploaded_files ++ map filename files),
       fold_left (fun dir g => write_source dir (filename g) (file g)) files sources_dir).
Proof.
  induction 1 as [|g files Hg _ IH]; intros sources_dir uploaded_files; simpl.
  - by rewrite app_nil_r.
  - rewrite Hg. simpl. rewrite IH. by rewrite <- app_assoc.
Qed.

(** X20: the status 400 that [upload_documents] raises for a file of an
    unsupported type is caught by the handler's own [except Exception]
    and reaches the client as status 500. The files that stand before
    the refused one in the request are stored all the same, and the
    index directory is not touched. *)
Theorem upload_documents_unsupported fuel (before : list UploadFile) f after (w : world) :
  Forall (fun g => accepted (filename g) = true) before →
  accepted (filename f) = false →
  upload_documents fuel (before ++ f :: after) w
  = Some (HTTPException 500
            (str_http_exception 400
               (py "Unsupported file type: " ++ Py.of_string (filename f))),
          {| SOURCES_DIR :=
               fold_left (fun dir g => write_source dir (filename g) (file g)) before
                 (SOURCES_DIR w);
             INDEX_DIR := INDEX_DIR w |}).
Proof.
  intros Hbefore Hf. unfold upload_documents.
  by rewrite (save_uploads_rejected before f after Hbefore Hf).
Qed.

(** X21: [upload_documents] reports success for files that ingestion
    never reads. When every uploaded name is accepted but the sources
    directory then holds no file whose name ends in a supported
    extension as [glob] matches it (in lower case), the answer is 200
    and the index directory is as it was. *)
Theorem upload_documents_nothing_ingested fuel (files : list UploadFile) (w : world) :
  Forall (fun g => accepted (filename g) = true) files →
  DocumentIngester.supported_files
    (fold_left (fun dir g => write_source dir (filename g) (file g)) files (SOURCES_DIR w))
  = [] →
  upload_documents fuel files w
  = Some (JSONResponse 200
            (UploadContent
               (py "Successfully uploaded and processed "
                ++ Py.of_string (pretty (length (map filename files))) ++ py " files")
               (map filename files)),
          {| SOURCES_DIR :=
               fold_left (fun dir g => write_source dir (filename g) (file g)) files
                 (SOURCES_DIR w);
             INDEX_DIR := INDEX_DIR w |}).
Proof.
  intros Hfiles Hnone. unfold upload_documents.
  rewrite (save_uploads_accepted files Hfiles). simpl.
  unfold DocumentIngester.process_documents. rewrite Hnone. reflexivity.
Qed.

(** X22: [chat_with_ai] answers status 500 when the request has no
    message or an empty one (the status 400 it raises is caught by its
    own handler); otherwise it answers status 200 with the string of
    [process_query] and the message, and changes nothing. *)
Theorem chat_with_ai_answers (rag_processor : RAGProcessor.t) (message : option pystr)
    (w : world) :
  ((message = None ∨ message = Some []) →
     chat_with_ai rag_processor message w
     = (HTTPException 500 (str_http_exception 400 (py "Message is required")), w))
  ∧ (∀ user_message,
       message = Some user_message → user_message ≠ [] →
       ∃ response,
         RAGProcessor.process_query rag_processor user_message (INDEX_DIR w)
         = (Ok response, INDEX_DIR w)
         ∧ chat_with_ai rag_processor message w
           = (JSONResponse 200 (ChatContent response user_message), w)).
Proof.
  split.
  - by intros [-> | ->].
  - intros user_message -> Hne. unfold chat_with_ai. simpl.
    destruct user_message as [|c rest]; [done|]. simpl negb. cbv iota.
    destruct (load_index_returns (INDEX_DIR w)) as [[index metadata] Hl].
    change (DocumentIngester.load_index (INDEX_DIR w))
      with (RAGProcessor.load_index (INDEX_DIR w)) in Hl.
    destruct (load_chunks_returns (Nm:=Nm) (INDEX_DIR w)) as [chunks Hc].
    assert (∃ response,
              RAGProcessor.process_query rag_processor (c :: rest) (INDEX_DIR w)
              = (Ok response, INDEX_DIR w)) as [response Hq].
    { unfold RAGProcessor.process_query, io_catch, mbind, io_bind, mret, io_ret, io_lift.
      rewrite Hl. destruct index as [index|]; [|eauto].
      rewrite Hc. destruct (negb (Py.truthy chunks)); [eauto|].
      destruct (retrieve_relevant_chunks_returns rag_processor (c :: rest) index metadata chunks)
        as [relevant ->].
      destruct (negb (Py.truthy relevant)); [eauto|].
      destruct (generate_response_returns rag_processor (c :: rest) relevant) as [answer ->].
      eauto. }
    exists response. split; [done|]. rewrite Hq. simpl. by destruct w.
Qed.

Lemma source_exists_unlink (sources_dir : list source_file) file_name :
  source_exists (unlink sources_dir file_name) file_name = false.
Proof.
  unfold source_exists, unlink.
  induction sources_dir as [|f rest IH]; simpl; [done|].
  destruct (String.eqb (name f) file_name) eqn:Ef; simpl; [done|].
  by rewrite Ef, IH.
Qed.

(** X23: [delete_document] answers status 500 for a name that is not in
    the sources directory (the status 404 it raises is caught by its own
    handler) and changes nothing. For a stored name it removes the file
    and runs the ingestion again over the remaining files, which only
    appends: every metadata entry that could be loaded before the
    deletion, those of the deleted file included, is still loaded after
    it. *)
Theorem delete_document_keeps_metadata (file_name : string) (w : world) :
  (source_exists (SOURCES_DIR w) file_name = false →
     ∀ fuel, delete_document fuel file_name w
             = Some (HTTPException 500 (str_http_exception 404 (py "Document not found")), w))
  ∧ (source_exists (SOURCES_DIR w) file_name = true →
     ∃ o w',
       (∀ fuel, (DocumentIngester.fuel_for (unlink (SOURCES_DIR w) file_name) ≤ fuel)%nat →
                delete_document fuel file_name w = Some (o, w'))
       ∧ ok_or_500 o
       ∧ SOURCES_DIR w' = unlink (SOURCES_DIR w) file_name
       ∧ source_exists (SOURCES_DIR w') file_name = false
       ∧ ∀ index metadata,
           DocumentIngester.load_index (INDEX_DIR w) = (Ok (Some index, metadata), INDEX_DIR w) →
           ∃ index' extra,
             DocumentIngester.load_index (INDEX_DIR w')
             = (Ok (Some index', metadata ++ extra), INDEX_DIR w')).
Proof.
  split.
  - intros Hmissing fuel. unfold delete_document. by rewrite Hmissing.
  - intros Hexists.
    destruct (process_documents_returns (unlink (SOURCES_DIR w) file_name) (INDEX_DIR w))
      as [[r index_dir'] Hrun].
    exists (match r with
            | Raise e => or_500 (Failed (Internal e))
            | Ok _ =>
                or_500 (Done (JSONResponse 200
                                (MessageContent
                                   (py "Document " ++ Py.of_string file_name
                                    ++ py " deleted successfully"))))
            end),
      {| SOURCES_DIR := unlink (SOURCES_DIR w) file_name; INDEX_DIR := index_dir' |}.
    split; [|split; [|split; [|split]]].
    + intros fuel Hfuel. unfold delete_document. rewrite Hexists. simpl.
      rewrite (Hrun fuel Hfuel). by destruct r.
    + destruct r; [left | right]; simpl; eauto.
    + done.
    + apply source_exists_unlink.
    + intros index metadata Hl. simpl.
      eapply process_documents_keeps_prefix; [exact Hl|].
      apply Hrun. reflexivity.
Qed.

End HandlerFacts.

Lemma upload_documents_unsupported_witness :
  App.upload_documents (U:=Demo.ascii_only) (E:=Demo.constant_model) (F:=Demo.plain_framework)
    12 ([Demo.upload_text] ++ Demo.upload_program :: []) Demo.empty_world
  = Some (App.HTTPException 500
            (str_http_exception (Framework:=Demo.plain_framework) 400
               (py "Unsupported file type: " ++ Py.of_string "b.exe")),
          {| App.SOURCES_DIR :=
               fold_left (fun dir g => App.write_source dir (App.filename g) (App.file g))
                 [Demo.upload_text] (App.SOURCES_DIR Demo.empty_world);
             App.INDEX_DIR := App.INDEX_DIR Demo.empty_world |}).
Proof.
  apply (upload_documents_unsupported (U:=Demo.ascii_only) (E:=Demo.constant_model)
           (F:=Demo.plain_framework) 12 [Demo.upload_text] Demo.upload_program []
           Demo.empty_world).
  - repeat constructor.
  - reflexivity.
Defined.

Lemma upload_documents_nothing_ingested_witness :
  App.upload_documents (U:=Demo.ascii_only) (E:=Demo.constant_model) (F:=Demo.plain_framework)
    12 [Demo.upload_upper] Demo.empty_world
  = Some (App.JSONResponse 200
            (App.UploadContent
               (py "Successfully uploaded and processed "
                ++ Py.of_string (pretty (length (map App.filename [Demo.upload_upper])))
                ++ py " files")
               (map App.filename [Demo.upload_upper])),
          {| App.SOURCES_DIR :=
               fold_left (fun dir g => App.write_source dir (App.filename g) (App.file g))
                 [Demo.upload_upper] (App.SOURCES_DIR Demo.empty_world);
             App.INDEX_DIR := App.INDEX_DIR Demo.empty_world |}).
Proof.
  apply (upload_documents_nothing_ingested (U:=Demo.ascii_only) (E:=Demo.constant_model)
           (F:=Demo.plain_framework) 12 [Demo.upload_upper] Demo.empty_world).
  - repeat constructor.
  - reflexivity.
Defined.

Lemma chat_with_ai_answers_witness :
  App.chat_with_ai (E:=Demo.constant_model) (V:=Demo.first_k_search) (C:=Demo.failing_chat)
    (F:=Demo.plain_framework) Demo.processor None Demo.empty_world
  = (App.HTTPException 500
       (str_http_exception (Framework:=Demo.plain_framework) 400 (py "Message is required")),
     Demo.empty_world).
Proof.
  apply (chat_with_ai_answers (E:=Demo.constant_model) (V:=Demo.first_k_search)
           (C:=Demo.failing_chat) (F:=Demo.plain_framework)).
  by left.
Defined.

Lemma delete_document_keeps_metadata_witness :
  ∃ o w',
    App.delete_document (U:=Demo.ascii_only) (E:=Demo.constant_model)
      (F:=Demo.plain_framework) 1 "a.txt" Demo.ingested_world
    = Some (o, w')
    ∧ ∃ index' extra,
        DocumentIngester.load_index (App.INDEX_DIR w')
        = (Ok (Some index', [Demo.hello_metadata] ++ extra), App.INDEX_DIR w').
Proof.
  destruct (delete_document_keeps_metadata (U:=Demo.ascii_only) (E:=Demo.constant_model)
              (F:=Demo.plain_framework) "a.txt" Demo.ingested_world) as [_ Hstored].
  destruct Hstored as (o & w' & Hrun & _ & _ & _ & Hkeeps); [reflexivity|].
  exists o, w'. split.
  - apply Hrun. vm_compute. lia.
  - apply (Hkeeps (@Build_faiss_index Demo.integers 384 [Demo.row])). reflexivity.
Defined.

(** * The number of chunks *)

Section ChunkCount.
Import DocumentIngester.

Lemma chunk_loop_count text fuel :
  ∀ start chunks r,
    chunk_loop fuel init text start chunks = Some r →
    Py.len r <= Py.len chunks + Z.max 0 ((Py.len text - start + 700) / 701).
Proof.
  induction fuel as [|fuel IH]; intros start chunks r Hr; [done|].
  simpl in Hr.
  destruct (Z.ltb_spec start (Py.len text)) as [Hlt|Hge]; [|simplify_eq; lia].
  pose proof (window_end_progress init text start) as Hp.
  change (chunk_size init) with 1000 in Hp.
  change (chunk_overlap init) with 200 in Hr.
  set (chunk := Py.strip (Py.slice text start (window_end init text start))) in *.
  set (chunks' := if Py.truthy chunk then chunks ++ [chunk] else chunks) in *.
  assert (Py.len chunks' <= Py.len chunks + 1) as Hone.
  { unfold chunks', Py.len. destruct (Py.truthy chunk); rewrite ?length_app; simpl; lia. }
  assert (1 <= (Py.len text - start + 700) / 701) as Hdiv.
  { apply Z.div_le_lower_bound; lia. }
  destruct (Z.geb_spec (window_end init text start - 200) (Py.len text)) as [Hstop|Hgo].
  - injection Hr as <-. lia.
  - apply IH in Hr.
    assert ((Py.len text - (window_end init text start - 200) + 700) / 701
            <= (Py.len text - start + 700) / 701 - 1) as Hstep.
    { replace ((Py.len text - start + 700) / 701 - 1)
        with ((Py.len text - start + 700 + (-1) * 701) / 701)
        by (rewrite Z.div_add by lia; lia).
      apply Z.div_le_mono; lia. }
    lia.
Qed.

(** X24: under the configuration of [__init__] the number of chunks of
    a text is at most the number of windows of 701 characters needed to
    cover it (and one for a text of at most [chunk_size] characters). *)
Theorem chunk_text_count (text : pystr) :
  ∃ chunks,
    (∀ fuel, (length text < fuel)%nat → chunk_text fuel init text = Some chunks)
    ∧ Py.len chunks <= Z.max 1 ((Py.len text + 700) / 701).
Proof.
  destruct (chunk_text_enough_fuel init text) as [chunks Hfuel]; [by vm_compute|].
  exists chunks. split; [done|].
  specialize (Hfuel (S (length text)) ltac:(lia)).
  unfold chunk_text in Hfuel.
  destruct (Z.leb_spec (Py.len text) (chunk_size init)).
  - simplify_eq. unfold Py.len. simpl. lia.
  - apply chunk_loop_count in Hfuel. rewrite Z.sub_0_r in Hfuel.
    unfold Py.len in *. simpl in Hfuel. lia.
Qed.

End ChunkCount.

Lemma chunk_text_count_witness :
  ∃ chunks,
    DocumentIngester.chunk_text 1301 DocumentIngester.init Demo.long_text = Some chunks
    ∧ Py.len chunks <= Z.max 1 ((Py.len Demo.long_text + 700) / 701).
Proof.
  destruct (chunk_text_count Demo.long_text) as (chunks & Hfuel & Hcount).
  exists chunks. split; [|exact Hcount].
  apply Hfuel. vm_compute. lia.
Defined.

(** * From upload to chat *)

Section EndToEnd.
Context {P : Parsers} {U : UnicodeData} {Nm : Numeric} {E : Embedder}
        {V : VectorSearch} {C : ChatModel} {F : Framework}.
Import App.

Lemma upload_documents_returns (uploads : list UploadFile) (w : world) :
  ∃ o w',
    (∀ fuel, (DocumentIngester.fuel_for (save_uploads uploads (SOURCES_DIR w) []).2 ≤ fuel)%nat →
             upload_documents fuel uploads w = Some (o, w'))
    ∧ same_outside_index (INDEX_DIR w) (INDEX_DIR w').
Proof.
  unfold upload_documents.
  destruct (save_uploads uploads (SOURCES_DIR w) []) as [[uploaded|e] sources_dir]; simpl.
  - destruct (process_documents_returns sources_dir (INDEX_DIR w)) as [[r index_dir'] Hrun].
    pose proof (Hrun _ (le_n _)) as Hframe. apply process_documents_frame in Hframe.
    destruct r as [[]|e].
    + eexists _, _. split; [intros fuel Hfuel; by rewrite (Hrun fuel Hfuel)|done].
    + eexists _, _. split; [intros fuel Hfuel; by rewrite (Hrun fuel Hfuel)|done].
  - eexists _, _. split; [done|]. apply same_outside_index_refl.
Qed.

Lemma chat_without_chunks (rag_processor : RAGProcessor.t) user_message (w : world) :
  user_message ≠ [] →
  files (INDEX_DIR w) !! "chunks.pkl"%string = None →
  ∃ answer,
    chat_with_ai rag_processor (Some user_message) w
    = (JSONResponse 200 (ChatContent answer user_message), w)
    ∧ (answer = RAGProcessor.no_knowledge_base ∨ answer = RAGProcessor.no_text_chunks).
Proof.
  intros Hne Hnone. unfold chat_with_ai. simpl.
  destruct user_message as [|c rest]; [done|]. simpl negb. cbv iota.
  destruct (process_query_without_chunks rag_processor (c :: rest) (INDEX_DIR w) Hnone)
    as (answer & -> & Hanswer).
  exists answer. split; [|done]. simpl. by destruct w.
Qed.

(** X25: the application cannot answer from uploaded documents. When
    the index directory holds no chunk-text file, [upload_documents]
    returns for every request, and every chat message sent afterwards
    is answered with status 200 and the "no knowledge base" or the
    "no text chunks" message. *)
Theorem chat_after_upload (uploads : list UploadFile) (w : world)
    (rag_processor : RAGProcessor.t) (user_message : pystr) :
  files (INDEX_DIR w) !! "chunks.pkl"%string = None →
  user_message ≠ [] →
  ∃ o w',
    (∀ fuel, (DocumentIngester.fuel_for (save_uploads uploads (SOURCES_DIR w) []).2 ≤ fuel)%nat →
             upload_documents fuel uploads w = Some (o, w'))
    ∧ ∃ answer,
        chat_with_ai rag_processor (Some user_message) w'
        = (JSONResponse 200 (ChatContent answer user_message), w')
        ∧ (answer = RAGProcessor.no_knowledge_base ∨ answer = RAGProcessor.no_text_chunks).
Proof.
  intros Hnone Hne.
  destruct (upload_documents_returns uploads w) as (o & w' & Hrun & _ & Hframe).
  exists o, w'. split; [done|].
  apply chat_without_chunks; [done|].
  by rewrite Hframe.
Qed.

End EndToEnd.

Lemma chat_after_upload_witness :
  ∃ o w',
    App.upload_documents (U:=Demo.ascii_only) (E:=Demo.constant_model) (F:=Demo.plain_framework)
      12 [Demo.upload_text] Demo.empty_world
    = Some (o, w')
    ∧ ∃ answer,
        App.chat_with_ai (E:=Demo.constant_model) (V:=Demo.first_k_search)
          (C:=Demo.failing_chat) (F:=Demo.plain_framework) Demo.processor
          (Some (py "hello")) w'
        = (App.JSONResponse 200 (App.ChatContent answer (py "hello")), w')
        ∧ (answer = RAGProcessor.no_knowledge_base ∨ answer = RAGProcessor.no_text_chunks).
Proof.
  destruct (chat_after_upload (U:=Demo.ascii_only) (E:=Demo.constant_model)
              (V:=Demo.first_k_search) (C:=Demo.failing_chat) (F:=Demo.plain_framework)
              [Demo.upload_text] Demo.empty_world Demo.processor (py "hello"))
    as (o & w' & Hrun & Hanswer); [reflexivity | discriminate |].
  exists o, w'. split; [|exact Hanswer].
  apply Hrun. vm_compute. lia.
Defined.
